(** * The schema/form mapping of the JSON Schema demo application

    A shallow embedding of the mapping logic of [demo_app.py]:
    [load_test_schema], [get_default_values_from_schema] and the
    coercion loops of the [submit] handler, over a model of the Python
    values that [json.load] produces.  Page layout, routing and the
    rendering of the result are not modelled. *)

From Stdlib Require Import ZArith String Ascii.
From Stdlib Require Import Floats.PrimFloat Floats.SpecFloat Floats.FloatOps.
From stdpp Require Import base option list gmap strings fin_maps fin_sets.

Local Open Scope Z_scope.

(** ** Exceptions and results *)

(** The exception classes the modelled code can raise or catch. *)
Inductive exn : Type :=
  | AttributeError
  | TypeError
  | ValueError
  | KeyError
  | OverflowError
  | FileNotFoundError
  | IsADirectoryError
  | PermissionError
  | JSONDecodeError.

(** The class name of an exception, as Python reports it. *)
Definition exn_name (e : exn) : string :=
  match e with
  | AttributeError => "AttributeError"
  | TypeError => "TypeError"
  | ValueError => "ValueError"
  | KeyError => "KeyError"
  | OverflowError => "OverflowError"
  | FileNotFoundError => "FileNotFoundError"
  | IsADirectoryError => "IsADirectoryError"
  | PermissionError => "PermissionError"
  | JSONDecodeError => "JSONDecodeError"
  end.

(** [except (ValueError, TypeError)]: the classes and their subclasses
    ([json.JSONDecodeError] derives from [ValueError]). *)
Definition caught_value_or_type (e : exn) : bool :=
  match e with
  | ValueError | TypeError | JSONDecodeError => true
  | _ => false
  end.

(** A computation returns a value or raises. *)
Inductive result (A : Type) : Type :=
  | Ok (a : A)
  | Raise (e : exn).
Arguments Ok {A} a.
Arguments Raise {A} e.

Definition is_ok {A} (r : result A) : bool :=
  match r with Ok _ => true | Raise _ => false end.

#[global] Instance result_ret : MRet result := λ A a, Ok a.
#[global] Instance result_bind : MBind result := λ A B f r,
  match r with
  | Ok a => f a
  | Raise e => Raise e
  end.

(** A [for] loop over [items] threading the object it updates; the
    first exception raised by the body leaves the loop. *)
Fixpoint for_each {A St : Type} (body : A → St → result St)
    (items : list A) (st : St) : result St :=
  match items with
  | [] => Ok st
  | x :: rest =>
      match body x st with
      | Ok st' => for_each body rest st'
      | Raise e => Raise e
      end
  end.

(** ** Python values *)

(** The values of [json.load], and of the configuration the handler
    builds: [None], [bool], [int], [float] (binary64), [str], [list]
    and [dict] with string keys. *)
#[warnings="-register-all"]
Inductive pyval : Type :=
  | PNone
  | PBool (b : bool)
  | PInt (z : Z)
  | PFloat (f : float)
  | PStr (s : string)
  | PList (l : list pyval)
  | PDict (d : gmap string pyval).

Definition is_dict (v : pyval) : bool :=
  match v with PDict _ => true | _ => false end.

(** [v == s] for a string literal [s]. *)
Definition py_eq_str (v : pyval) (s : string) : bool :=
  match v with
  | PStr s' => String.eqb s' s
  | _ => false
  end.

(** [v.get(k, dflt)]: only a [dict] has the method. *)
Definition py_get (v : pyval) (k : string) (dflt : pyval) : result pyval :=
  match v with
  | PDict d => Ok (default dflt (d !! k))
  | _ => Raise AttributeError
  end.

(** [v.items()]: only a [dict] has the method. *)
Definition py_items (v : pyval) : result (list (string * pyval)) :=
  match v with
  | PDict d => Ok (map_to_list d)
  | _ => Raise AttributeError
  end.

(** [k in v] for a string [k]: key membership on a [dict], substring
    test on a [str], element membership on a [list]; the other values
    are not containers. *)
Definition py_contains (k : string) (v : pyval) : result bool :=
  match v with
  | PDict d => Ok (bool_decide (is_Some (d !! k)))
  | PStr s => Ok (bool_decide (is_Some (String.index 0 k s)))
  | PList l => Ok (existsb (λ x, py_eq_str x k) l)
  | _ => Raise TypeError
  end.

(** [v[k]] for a string [k]. *)
Definition py_getitem (v : pyval) (k : string) : result pyval :=
  match v with
  | PDict d =>
      match d !! k with
      | Some x => Ok x
      | None => Raise KeyError
      end
  | _ => Raise TypeError
  end.

(** ** The builtins [int], [float] and [json.loads]

    The grammars of numeric and JSON literals belong to the Python
    runtime; the development is parametric in them. *)
Class PyBuiltins : Type := {
  int_of_str : string → option Z;
  float_of_str : string → option float;
  json_loads : string → option pyval
}.

(** Truncation of a finite binary64 value towards zero. *)
Definition float_trunc (f : float) : result Z :=
  match Prim2SF f with
  | S754_zero _ => Ok 0
  | S754_infinity _ => Raise OverflowError
  | S754_nan => Raise ValueError
  | S754_finite s m e =>
      let a := if (0 <=? e) then Z.shiftl (Zpos m) e
               else Z.shiftr (Zpos m) (- e) in
      Ok (if s then - a else a)
  end.

(** The binary64 value nearest to an integer (ties to even). *)
Definition float_of_Z (z : Z) : result float :=
  let f := SF2Prim (binary_normalize prec emax z 0 false) in
  if is_infinity f then Raise OverflowError else Ok f.

Section Builtins.
Context `{PyBuiltins}.

(** [int(v)] *)
Definition py_int (v : pyval) : result Z :=
  match v with
  | PStr s =>
      match int_of_str s with
      | Some z => Ok z
      | None => Raise ValueError
      end
  | PBool b => Ok (Z.b2z b)
  | PInt z => Ok z
  | PFloat f => float_trunc f
  | PNone | PList _ | PDict _ => Raise TypeError
  end.

(** [float(v)] *)
Definition py_float (v : pyval) : result float :=
  match v with
  | PStr s =>
      match float_of_str s with
      | Some f => Ok f
      | None => Raise ValueError
      end
  | PBool b => Ok (if b then 1%float else 0%float)
  | PInt z => float_of_Z z
  | PFloat f => Ok f
  | PNone | PList _ | PDict _ => Raise TypeError
  end.
End Builtins.

(** ** The process state the loader reads *)

(** What a path resolves to: a directory, or a regular file with its
    read permission and its text. *)
Inductive fs_node : Type :=
  | FsDir
  | FsFile (readable : bool) (content : string).

(** The module global [SCHEMA_PATH] ([None] until the entry point sets
    it) and the file system. *)
Record world : Type := World {
  SCHEMA_PATH : option string;
  files : gmap string fs_node
}.

(** [Path(p).exists()] *)
Definition path_exists (w : world) (p : string) : bool :=
  bool_decide (is_Some (files w !! p)).

(** [open(p, "r")] followed by reading the whole file. *)
Definition open_read (w : world) (p : string) : result string :=
  match files w !! p with
  | None => Raise FileNotFoundError
  | Some FsDir => Raise IsADirectoryError
  | Some (FsFile false _) => Raise PermissionError
  | Some (FsFile true content) => Ok content
  end.

(** The path resolves to a file that can be read. *)
Definition readable_file (w : world) (p : string) : bool :=
  match files w !! p with
  | Some (FsFile true _) => true
  | _ => false
  end.

Section Mapper.
Context `{PyBuiltins}.

(** [json.load(f)] *)
Definition json_load (text : string) : result pyval :=
  match json_loads text with
  | Some v => Ok v
  | None => Raise JSONDecodeError
  end.

(** [load_test_schema()]: [Path(None)] is a [TypeError]. *)
Definition load_test_schema (w : world) : result pyval :=
  match SCHEMA_PATH w with
  | None => Raise TypeError
  | Some schema_path =>
      if negb (path_exists w schema_path) then Raise FileNotFoundError
      else text ← open_read w schema_path; json_load text
  end.

(** The body of the loop of [get_default_values_from_schema]. *)
Definition default_step (item : string * pyval)
    (values : gmap string pyval) : result (gmap string pyval) :=
  let '(prop_name, prop_schema) := item in
  has_default ← py_contains "default" prop_schema;
  if has_default : bool then
    v ← py_getitem prop_schema "default";
    Ok (<[prop_name := v]> values)
  else Ok values.

(** [get_default_values_from_schema(schema)] *)
Definition get_default_values_from_schema (schema : pyval)
    : result (gmap string pyval) :=
  let values : gmap string pyval := ∅ in
  properties ← py_get schema "properties" (PDict ∅);
  items ← py_items properties;
  for_each default_step items values.

(** The body of the first loop of [submit] (checkboxes). *)
Definition boolean_step (item : string * pyval)
    (config : gmap string pyval) : result (gmap string pyval) :=
  let '(prop_name, prop_schema) := item in
  ty ← py_get prop_schema "type" PNone;
  if py_eq_str ty "boolean" then
    Ok (<[prop_name := PBool (bool_decide (is_Some (config !! prop_name)))]>
          config)
  else Ok config.

(** The body of the second loop of [submit] (numeric fields). *)
Definition numeric_step (item : string * pyval)
    (config : gmap string pyval) : result (gmap string pyval) :=
  let '(prop_name, prop_schema) := item in
  match config !! prop_name with
  | None => Ok config
  | Some raw =>
      ty ← py_get prop_schema "type" PNone;
      if py_eq_str ty "integer" then
        match py_int raw with
        | Ok z => Ok (<[prop_name := PInt z]> config)
        | Raise e => if caught_value_or_type e then Ok config else Raise e
        end
      else
        ty' ← py_get prop_schema "type" PNone;
        if py_eq_str ty' "number" then
          match py_float raw with
          | Ok f => Ok (<[prop_name := PFloat f]> config)
          | Raise e => if caught_value_or_type e then Ok config else Raise e
          end
        else Ok config
  end.

(** The coercion of [submit] on an already loaded [schema]: the
    statements from [config = dict(form_data)] to the end of the
    second loop. *)
Definition coerce_submission (schema : pyval)
    (form_data : gmap string string) : result (gmap string pyval) :=
  let config : gmap string pyval := PStr <$> form_data in
  properties ← py_get schema "properties" (PDict ∅);
  items ← py_items properties;
  config ← for_each boolean_step items config;
  properties ← py_get schema "properties" (PDict ∅);
  items ← py_items properties;
  for_each numeric_step items config.

(** [submit(request)], up to the configuration it echoes back. *)
Definition submit (w : world) (form_data : gmap string string)
    : result (gmap string pyval) :=
  schema ← load_test_schema w;
  coerce_submission schema form_data.
End Mapper.

(** ** The page handler and the entry point *)

(** The parsed command line: [--schema], [--port], [--host]. *)
Record cli_args : Type := CliArgs {
  arg_schema : string;
  arg_port : Z;
  arg_host : string
}.

(** The defaults [argparse] is given. *)
Definition default_args : cli_args :=
  CliArgs "test_files/voxtral_config_schema.json" 5001 "0.0.0.0".

(** How the entry point ends: [sys.exit(code)], or [uvicorn.run] with
    the process state, the schema's title and description it printed,
    and the address it serves. *)
Inductive startup : Type :=
  | Exit (code : Z)
  | Serve (w : world) (schema_title schema_desc : pyval)
      (host : string) (port : Z).

Section Handlers.
Context `{PyBuiltins}.

(** [index()], up to the call of [generate_form_ui]: the [schema] and
    the [values] the form generator is given. *)
Definition index_form_inputs (w : world)
    : result (pyval * gmap string pyval) :=
  schema ← load_test_schema w;
  example_values ← get_default_values_from_schema schema;
  Ok (schema, example_values).

(** The [try] block of the entry point: the title and the description
    of the schema file. *)
Definition read_schema_info (w : world) (path : string)
    : result (pyval * pyval) :=
  text ← open_read w path;
  schema_data ← json_load text;
  schema_title ← py_get schema_data "title" (PStr "Unknown");
  schema_desc ← py_get schema_data "description" (PStr "No description");
  Ok (schema_title, schema_desc).

(** The entry point, started in the process state [w0] with the parsed
    arguments: it sets [SCHEMA_PATH], checks the schema file and serves.
    [except Exception] catches every exception of [exn]; what is
    printed is left out. *)
Definition main (w0 : world) (args : cli_args) : startup :=
  let w := World (Some (arg_schema args)) (files w0) in
  if negb (path_exists w (arg_schema args)) then Exit 1
  else
    match read_schema_info w (arg_schema args) with
    | Ok (schema_title, schema_desc) =>
        Serve w schema_title schema_desc (arg_host args) (arg_port args)
    | Raise _ => Exit 1
    end.

End Handlers.

(** ** Vocabulary of the specification *)

(** The [properties] mapping of a schema document, when the document is
    a mapping and the field is absent (empty) or a mapping. *)
Definition schema_properties (schema : pyval) : option (gmap string pyval) :=
  match schema with
  | PDict d =>
      match d !! "properties" with
      | None => Some ∅
      | Some (PDict props) => Some props
      | Some _ => None
      end
  | _ => None
  end.

(** The declared [type] of a property schema is the string [ty]. *)
Definition has_type (ty : string) (prop_schema : pyval) : bool :=
  match prop_schema with
  | PDict d => py_eq_str (default PNone (d !! "type")) ty
  | _ => false
  end.

(** The [default] a property schema declares, if any. *)
Definition declared_default (prop_schema : pyval) : option pyval :=
  match prop_schema with
  | PDict d => d !! "default"
  | _ => None
  end.

(** Every property schema is itself a mapping. *)
Definition property_schemas_are_mappings (props : gmap string pyval) : Prop :=
  map_Forall (λ _ ps, is_dict ps = true) props.

(** The names of the properties typed [ty]. *)
Definition typed_properties (ty : string) (props : gmap string pyval)
    : gset string :=
  dom (filter (λ kv, has_type ty kv.2 = true) props).

(** The schema is a mapping, its [properties] is absent or a mapping,
    and every property schema is a mapping. *)
Definition flat_schema (schema : pyval) : Prop :=
  ∃ props, schema_properties schema = Some props ∧
           property_schemas_are_mappings props.

(** ** What the loops do to the mapping they update *)

(** What one iteration does to [values] when it does not raise. *)
Definition default_update (item : string * pyval)
    (values : gmap string pyval) : gmap string pyval :=
  match declared_default item.2 with
  | Some v => <[item.1 := v]> values
  | None => values
  end.

(** What the first loop does to [config] for one property. *)
Definition boolean_update (item : string * pyval)
    (config : gmap string pyval) : gmap string pyval :=
  if has_type "boolean" item.2
  then <[item.1 := PBool (bool_decide (is_Some (config !! item.1)))]> config
  else config.

(** Every item has a mapping for property schema. *)
Definition all_dicts (items : list (string * pyval)) : bool :=
  forallb (λ item, is_dict item.2) items.

(** The property is typed [integer] or [number]. *)
Definition numeric (ps : pyval) : bool :=
  has_type "integer" ps || has_type "number" ps.

Section Coerced.
Context `{PyBuiltins}.

(** The value the second loop leaves for a raw string [s] submitted for
    a property with schema [ps]. *)
Definition coerce_str (ps : pyval) (s : string) : pyval :=
  if has_type "integer" ps then
    match int_of_str s with
    | Some z => PInt z
    | None => PStr s
    end
  else if has_type "number" ps then
    match float_of_str s with
    | Some f => PFloat f
    | None => PStr s
    end
  else PStr s.

(** What the second loop leaves for a value [raw] found in [config]. *)
Definition coerce_val (ps : option pyval) (raw : pyval) : pyval :=
  match ps, raw with
  | Some ps, PStr s => coerce_str ps s
  | _, _ => raw
  end.

(** The values the second loop converts are raw strings. *)
Definition convertible (items : list (string * pyval))
    (config : gmap string pyval) : Prop :=
  ∀ name ps raw, (name, ps) ∈ items → config !! name = Some raw →
    (∃ s, raw = PStr s) ∨ numeric ps = false.

(** The entry of the submitted configuration under key [k], read off
    the schema's properties and the raw form data. *)
Definition coerced_value (props : gmap string pyval)
    (raw : gmap string string) (k : string) : option pyval :=
  match props !! k with
  | Some ps =>
      if has_type "boolean" ps
      then Some (PBool (bool_decide (is_Some (raw !! k))))
      else coerce_str ps <$> raw !! k
  | None => PStr <$> raw !! k
  end.

End Coerced.

(** Two property schemas declare the same kind of field: they agree on
    being typed [boolean], [integer] and [number]. *)
Definition same_kind (ps ps' : pyval) : Prop :=
  has_type "boolean" ps = has_type "boolean" ps' ∧
  has_type "integer" ps = has_type "integer" ps' ∧
  has_type "number" ps = has_type "number" ps'.

(** Looking up ["default"] in a property schema raises: the schema is a
    scalar, a string that contains the word, or a list that holds it. *)
Definition default_lookup_raises (ps : pyval) : bool :=
  match ps with
  | PDict _ => false
  | PStr s => bool_decide (is_Some (String.index 0 "default" s))
  | PList l => existsb (λ x, py_eq_str x "default") l
  | _ => true
  end.

(** ** The same operations over a heap of mutable objects

    [dict] and [list] objects live in a heap and are passed by
    reference, so that what an operation creates, reads and writes is
    explicit. *)
Module Heap.

Definition loc : Type := positive.

(** A value: immediate, or a reference to a heap object. *)
Inductive val : Type :=
  | VNone
  | VBool (b : bool)
  | VInt (z : Z)
  | VFloat (f : float)
  | VStr (s : string)
  | VRef (l : loc).

Inductive obj : Type :=
  | ODict (d : gmap string val)
  | OList (l : list val).

(** A computation reads and updates the heap, and returns or raises;
    the heap survives an exception. *)
Definition M (A : Type) : Type := gmap loc obj → result A * gmap loc obj.

#[global] Instance M_ret : MRet M := λ A a h, (Ok a, h).
#[global] Instance M_bind : MBind M := λ A B f m h,
  match m h with
  | (Ok a, h') => f a h'
  | (Raise e, h') => (Raise e, h')
  end.
#[global] Instance M_fmap : FMap M := λ A B f m h,
  match m h with
  | (Ok a, h') => (Ok (f a), h')
  | (Raise e, h') => (Raise e, h')
  end.

Definition raise {A : Type} (e : exn) : M A := λ h, (Raise e, h).

(** A new object, at a location not in use. *)
Definition alloc (o : obj) : M loc := λ h,
  let l := fresh (dom h) in (Ok l, <[l := o]> h).

(** The object a value refers to. *)
Definition deref (h : gmap loc obj) (v : val) : option obj :=
  match v with
  | VRef l => h !! l
  | _ => None
  end.

Definition lookup_obj (v : val) : M (option obj) := λ h, (Ok (deref h v), h).

(** The [dict] behind [v]; [e] is raised when [v] is not a [dict]. *)
Definition dict_of (v : val) (e : exn) : M (gmap string val) :=
  o ← lookup_obj v;
  match o with
  | Some (ODict d) => mret d
  | _ => raise e
  end.

Definition val_eq_str (v : val) (s : string) : bool :=
  match v with
  | VStr s' => String.eqb s' s
  | _ => false
  end.

(** [v.get(k, dflt)]: the method is looked up, then the argument is
    evaluated, then the call reads the [dict]. *)
Definition py_get (v : val) (k : string) (dflt : M val) : M val :=
  _ ← dict_of v AttributeError;
  dv ← dflt;
  d ← dict_of v AttributeError;
  mret (default dv (d !! k)).

(** [v.items()], read when the loop starts. *)
Definition py_items (v : val) : M (list (string * val)) :=
  d ← dict_of v AttributeError;
  mret (map_to_list d).

(** [k in v] *)
Definition py_contains (k : string) (v : val) : M bool :=
  match v with
  | VStr s => mret (bool_decide (is_Some (String.index 0 k s)))
  | VRef _ =>
      o ← lookup_obj v;
      match o with
      | Some (ODict d) => mret (bool_decide (is_Some (d !! k)))
      | Some (OList l) => mret (existsb (λ x, val_eq_str x k) l)
      | None => raise TypeError
      end
  | _ => raise TypeError
  end.

(** [v[k]] *)
Definition py_getitem (v : val) (k : string) : M val :=
  o ← lookup_obj v;
  match o with
  | Some (ODict d) =>
      match d !! k with
      | Some x => mret x
      | None => raise KeyError
      end
  | _ => raise TypeError
  end.

(** [v[k] = x]: updates the [dict] in place. *)
Definition py_setitem (v : val) (k : string) (x : val) : M unit := λ h,
  match v with
  | VRef l =>
      match h !! l with
      | Some (ODict d) => (Ok (), <[l := ODict (<[k := x]> d)]> h)
      | _ => (Raise TypeError, h)
      end
  | _ => (Raise TypeError, h)
  end.

Fixpoint for_each {A : Type} (body : A → M unit) (items : list A) : M unit :=
  match items with
  | [] => mret ()
  | x :: rest => body x ≫= λ _, for_each body rest
  end.

Section Operations.
Context `{PyBuiltins}.

(** [int(v)] and [float(v)]; a reference is to a [list] or [dict]. *)
Definition py_int (v : val) : result Z :=
  match v with
  | VStr s =>
      match int_of_str s with
      | Some z => Ok z
      | None => Raise ValueError
      end
  | VBool b => Ok (Z.b2z b)
  | VInt z => Ok z
  | VFloat f => float_trunc f
  | VNone | VRef _ => Raise TypeError
  end.

Definition py_float (v : val) : result float :=
  match v with
  | VStr s =>
      match float_of_str s with
      | Some f => Ok f
      | None => Raise ValueError
      end
  | VBool b => Ok (if b then 1%float else 0%float)
  | VInt z => float_of_Z z
  | VFloat f => Ok f
  | VNone | VRef _ => Raise TypeError
  end.

Definition default_step (values : val) (item : string * val) : M unit :=
  let '(prop_name, prop_schema) := item in
  has_default ← py_contains "default" prop_schema;
  if has_default : bool then
    v ← py_getitem prop_schema "default";
    py_setitem values prop_name v
  else mret ().

(** [get_default_values_from_schema(schema)] *)
Definition get_default_values_from_schema (schema : val) : M val :=
  values ← VRef <$> alloc (ODict ∅);
  properties ← py_get schema "properties" (VRef <$> alloc (ODict ∅));
  items ← py_items properties;
  for_each (default_step values) items;;
  mret values.

Definition boolean_step (config : val) (item : string * val) : M unit :=
  let '(prop_name, prop_schema) := item in
  ty ← py_get prop_schema "type" (mret VNone);
  if val_eq_str ty "boolean" then
    present ← py_contains prop_name config;
    py_setitem config prop_name (VBool present)
  else mret ().

(** [try: config[k] = conv(config[k]) except (ValueError, TypeError): pass] *)
Definition try_convert {A : Type} (conv : val → result A) (wrap : A → val)
    (config : val) (k : string) : M unit :=
  raw ← py_getitem config k;
  match conv raw with
  | Ok a => py_setitem config k (wrap a)
  | Raise e => if caught_value_or_type e then mret () else raise e
  end.

Definition numeric_step (config : val) (item : string * val) : M unit :=
  let '(prop_name, prop_schema) := item in
  present ← py_contains prop_name config;
  if present : bool then
    ty ← py_get prop_schema "type" (mret VNone);
    if val_eq_str ty "integer" then try_convert py_int VInt config prop_name
    else
      ty' ← py_get prop_schema "type" (mret VNone);
      if val_eq_str ty' "number"
      then try_convert py_float VFloat config prop_name
      else mret ()
  else mret ().

(** The coercion of [submit] on an already loaded [schema]. *)
Definition coerce_submission (schema : val) (form_data : gmap string string)
    : M val :=
  config ← VRef <$> alloc (ODict (VStr <$> form_data));
  properties ← py_get schema "properties" (VRef <$> alloc (ODict ∅));
  items ← py_items properties;
  for_each (boolean_step config) items;;
  properties ← py_get schema "properties" (VRef <$> alloc (ODict ∅));
  items ← py_items properties;
  for_each (numeric_step config) items;;
  mret config.

End Operations.

(** The [dict] a returned reference denotes in the final heap. *)
Definition outcome (run : result val * gmap loc obj)
    : result (option (gmap string val)) :=
  match run.1 with
  | Ok v =>
      Ok (match deref run.2 v with
          | Some (ODict d) => Some d
          | _ => None
          end)
  | Raise e => Raise e
  end.

(** The outcome a map of contents stands for. *)
Definition returned (r : result (gmap string val))
    : result (option (gmap string val)) :=
  match r with
  | Ok d => Ok (Some d)
  | Raise e => Raise e
  end.

(** Every reference stored in the heap, and [v] itself, is allocated. *)
Definition val_allocated (h : gmap loc obj) (v : val) : Prop :=
  match v with
  | VRef l => l ∈ dom h
  | _ => True
  end.

Definition obj_allocated (h : gmap loc obj) (o : obj) : Prop :=
  match o with
  | ODict d => map_Forall (λ _ v, val_allocated h v) d
  | OList l => Forall (val_allocated h) l
  end.

Definition closed (h : gmap loc obj) : Prop :=
  map_Forall (λ _ o, obj_allocated h o) h.

#[global] Instance val_allocated_dec h v : Decision (val_allocated h v).
Proof. destruct v; simpl; apply _. Defined.
#[global] Instance obj_allocated_dec h o : Decision (obj_allocated h o).
Proof. destruct o; simpl; apply _. Defined.
#[global] Instance closed_dec h : Decision (closed h).
Proof. unfold closed. apply _. Defined.

(** *** What the operations compute, as functions of what they read

    Each loop updates one [dict] of its own, given here as the map [d],
    and reads the property schemas from the heap [h]. *)

(** The items of [schema.get("properties", {})]. *)
Definition read_properties (h : gmap loc obj) (schema : val)
    : result (list (string * val)) :=
  match deref h schema with
  | Some (ODict ds) =>
      match ds !! "properties" with
      | None => Ok []
      | Some p =>
          match deref h p with
          | Some (ODict dp) => Ok (map_to_list dp)
          | _ => Raise AttributeError
          end
      end
  | _ => Raise AttributeError
  end.

(** [prop_schema["default"]] when ["default" in prop_schema]. *)
Definition read_default (h : gmap loc obj) (ps : val) : result (option val) :=
  match ps with
  | VStr s =>
      if bool_decide (is_Some (String.index 0 "default" s))
      then Raise TypeError else Ok None
  | VRef l =>
      match h !! l with
      | Some (ODict d) => Ok (d !! "default")
      | Some (OList l) =>
          if existsb (λ x, val_eq_str x "default") l
          then Raise TypeError else Ok None
      | None => Raise TypeError
      end
  | _ => Raise TypeError
  end.

(** [prop_schema.get("type")] *)
Definition read_type (h : gmap loc obj) (ps : val) : result val :=
  match deref h ps with
  | Some (ODict d) => Ok (default VNone (d !! "type"))
  | _ => Raise AttributeError
  end.

(** A loop over [items] that updates the map [d] and stops at the
    first exception, leaving the map as it then is. *)
Fixpoint loop_on {A : Type}
    (step : A → gmap string val → result (gmap string val))
    (items : list A) (d : gmap string val) : result unit * gmap string val :=
  match items with
  | [] => (Ok (), d)
  | item :: rest =>
      match step item d with
      | Ok d' => loop_on step rest d'
      | Raise e => (Raise e, d)
      end
  end.

Definition defaults_update (h : gmap loc obj) (item : string * val)
    (d : gmap string val) : result (gmap string val) :=
  let '(name, ps) := item in
  found ← read_default h ps;
  Ok (match found with
      | Some v => <[name := v]> d
      | None => d
      end).

Definition boolean_update (h : gmap loc obj) (item : string * val)
    (d : gmap string val) : result (gmap string val) :=
  let '(name, ps) := item in
  ty ← read_type h ps;
  Ok (if val_eq_str ty "boolean"
      then <[name := VBool (bool_decide (is_Some (d !! name)))]> d
      else d).

Section Readers.
Context `{PyBuiltins}.

(** The effect of [try_convert] on the map. *)
Definition convert {A : Type} (conv : val → result A) (wrap : A → val)
    (name : string) (raw : val) (d : gmap string val)
    : result (gmap string val) :=
  match conv raw with
  | Ok a => Ok (<[name := wrap a]> d)
  | Raise e => if caught_value_or_type e then Ok d else Raise e
  end.

Definition numeric_update (h : gmap loc obj) (item : string * val)
    (d : gmap string val) : result (gmap string val) :=
  let '(name, ps) := item in
  match d !! name with
  | None => Ok d
  | Some raw =>
      ty ← read_type h ps;
      if val_eq_str ty "integer" then convert py_int VInt name raw d
      else if val_eq_str ty "number" then convert py_float VFloat name raw d
      else Ok d
  end.

(** The contents of the [dict] that [get_default_values_from_schema]
    returns. *)
Definition defaults_of (h : gmap loc obj) (schema : val)
    : result (gmap string val) :=
  items ← read_properties h schema;
  let '(r, d) := loop_on (defaults_update h) items ∅ in
  _ ← r; Ok d.

(** The contents of the [dict] that [coerce_submission] returns. *)
Definition config_of (h : gmap loc obj) (schema : val)
    (form_data : gmap string string) : result (gmap string val) :=
  items ← read_properties h schema;
  let '(r, d) := loop_on (boolean_update h) items (VStr <$> form_data) in
  _ ← r;
  items ← read_properties h schema;
  let '(r, d) := loop_on (numeric_update h) items d in
  _ ← r; Ok d.

End Readers.

(** *** Heap values and the values they stand for *)

(** [repr h v p]: in the heap [h] the value [v] denotes the tree [p]. *)
#[warnings="-register-all"]
Inductive repr (h : gmap loc obj) : val → pyval → Prop :=
  | repr_none : repr h VNone PNone
  | repr_bool b : repr h (VBool b) (PBool b)
  | repr_int z : repr h (VInt z) (PInt z)
  | repr_float f : repr h (VFloat f) (PFloat f)
  | repr_str s : repr h (VStr s) (PStr s)
  | repr_dict l d pd :
      h !! l = Some (ODict d) →
      (∀ k, option_Forall2 (repr h) (d !! k) (pd !! k)) →
      repr h (VRef l) (PDict pd)
  | repr_list l vs ps :
      h !! l = Some (OList vs) →
      Forall2 (repr h) vs ps →
      repr h (VRef l) (PList ps).

(** Two mappings with the same keys and related entries. *)
Definition dict_repr (h : gmap loc obj) (d : gmap string val)
    (pd : gmap string pyval) : Prop :=
  ∀ k, option_Forall2 (repr h) (d !! k) (pd !! k).

(** A value that is held directly, not through a reference. *)
Definition immediate (x : val) : bool :=
  match x with
  | VBool _ | VInt _ | VFloat _ | VStr _ => true
  | VNone | VRef _ => false
  end.

(** Every value of the mapping is immediate. *)
Definition all_immediate (d : gmap string val) : Prop :=
  map_Forall (λ _ x, immediate x = true) d.

(** Two computations end the same way, with related results. *)
Definition result_rel {A B : Type} (R : A → B → Prop)
    (r1 : result A) (r2 : result B) : Prop :=
  match r1, r2 with
  | Ok a, Ok b => R a b
  | Raise e1, Raise e2 => e1 = e2
  | _, _ => False
  end.

(** The result of a loop of [loop_on]. *)
Definition loop_result (run : result unit * gmap string val)
    : result (gmap string val) :=
  match run.1 with
  | Ok _ => Ok run.2
  | Raise e => Raise e
  end.

End Heap.

(** ** An instance of the builtins for running examples

    Plain ASCII decimal literals: an optional sign, digits, and for
    [float] an optional fraction, with surrounding blanks stripped.
    The theorems below hold for every instance of [PyBuiltins]. *)
Module Decimal.

Definition is_blank (c : ascii) : bool :=
  let n := nat_of_ascii c in
  ((n =? 32) || ((9 <=? n) && (n <=? 13)))%nat.

Definition digit_of (c : ascii) : option Z :=
  let n := Z.of_nat (nat_of_ascii c) in
  if (48 <=? n) && (n <=? 57) then Some (n - 48) else None.

Fixpoint strip_left (s : string) : string :=
  match s with
  | String c rest => if is_blank c then strip_left rest else s
  | EmptyString => s
  end.

Definition strip (s : string) : string :=
  String.rev (strip_left (String.rev (strip_left s))).

(** The sign of a literal and what follows it. *)
Definition split_sign (s : string) : bool * string :=
  match s with
  | String "-" rest => (true, rest)
  | String "+" rest => (false, rest)
  | _ => (false, s)
  end.

(** A non-empty run of digits read as a number, continuing [acc];
    also counts the digits. *)
Fixpoint digits (s : string) (acc : Z) (count : nat) : option (Z * nat) :=
  match s with
  | EmptyString => Some (acc, count)
  | String c rest =>
      match digit_of c with
      | Some d => digits rest (10 * acc + d) (S count)
      | None => None
      end
  end.

Definition parse_int (s : string) : option Z :=
  let '(neg, body) := split_sign (strip s) in
  match body with
  | EmptyString => None
  | _ =>
      match digits body 0 0%nat with
      | Some (n, _) => Some (if neg : bool then - n else n)
      | None => None
      end
  end.

(** The text before and after the first ['.'], if there is one. *)
Fixpoint split_dot (s : string) : string * option string :=
  match s with
  | EmptyString => (EmptyString, None)
  | String "." rest => (EmptyString, Some rest)
  | String c rest =>
      let '(a, b) := split_dot rest in (String c a, b)
  end.

(** The binary64 value nearest to [m / 10^k]: the quotient is taken
    with 80 extra bits and a sticky bit before rounding. *)
Definition round_ratio (neg : bool) (m : Z) (k : nat) : float :=
  if m =? 0 then (if neg then (-0)%float else 0%float) else
  let den := 10 ^ Z.of_nat k in
  let sh := Z.log2 den + 80 in
  let q := Z.shiftl m sh / den in
  let sticky := if Z.shiftl m sh mod den =? 0 then 0 else 1 in
  let f := SF2Prim (binary_normalize prec emax (2 * q + sticky) (- sh - 1) false) in
  if neg then (- f)%float else f.

Definition parse_float (s : string) : option float :=
  let '(neg, body) := split_sign (strip s) in
  let '(whole, frac) := split_dot body in
  let frac := default EmptyString frac in
  match String.append whole frac with
  | EmptyString => None
  | all =>
      match digits all 0 0%nat with
      | Some (m, _) => Some (round_ratio neg m (String.length frac))
      | None => None
      end
  end.

(** JSON text: only the empty object is recognised. *)
Definition parse_json (s : string) : option pyval :=
  if String.eqb (strip s) "{}" then Some (PDict ∅) else None.

End Decimal.

#[global] Instance decimal_builtins : PyBuiltins := {|
  int_of_str := Decimal.parse_int;
  float_of_str := Decimal.parse_float;
  json_loads := Decimal.parse_json
|}.

(** ** Example data *)

Module Examples.

(** A JSON object given by its fields. *)
Definition obj (fields : list (string * pyval)) : pyval :=
  PDict (list_to_map fields).

(** A flat schema with one property of each supported type, and one
    integer property whose default is a string. *)
Definition demo_properties : gmap string pyval :=
  list_to_map
    [ ("enabled", obj [("type", PStr "boolean"); ("default", PBool true)]);
      ("max_tokens", obj [("type", PStr "integer"); ("default", PInt 256)]);
      ("temperature", obj [("type", PStr "number")]);
      ("name", obj [("type", PStr "string"); ("default", PStr "hi")]);
      ("count", obj [("type", PStr "integer"); ("default", PStr "many")]) ].

Definition demo_schema : pyval :=
  obj [("title", PStr "Demo"); ("properties", PDict demo_properties)].

(** A submission with the checkbox left unchecked, a field the schema
    does not know, and an integer field that does not parse. *)
Definition demo_form : gmap string string :=
  list_to_map
    [ ("max_tokens", "42"); ("temperature", "0.5"); ("name", "x");
      ("count", "abc"); ("extra", "1") ].

(** The schema with the single integer property [n]. *)
Definition int_schema : pyval :=
  obj [("properties", obj [("n", obj [("type", PStr "integer")])])].

(** Three of the property schemas of [demo_properties]. *)
Definition enabled_schema : pyval :=
  obj [("type", PStr "boolean"); ("default", PBool true)].
Definition max_tokens_schema : pyval :=
  obj [("type", PStr "integer"); ("default", PInt 256)].
Definition count_schema : pyval :=
  obj [("type", PStr "integer"); ("default", PStr "many")].

Definition name_schema : pyval :=
  obj [("type", PStr "string"); ("default", PStr "hi")].

(** Two schemas for the same integer field, one bare and one with a
    default and a title. *)
Definition bare_properties : gmap string pyval :=
  {["n" := obj [("type", PStr "integer")]]}.
Definition decorated_properties : gmap string pyval :=
  {["n" := obj [("type", PStr "integer"); ("default", PInt 5);
                ("title", PStr "N")]]}.
Definition bare_schema : pyval := obj [("properties", PDict bare_properties)].
Definition decorated_schema : pyval :=
  obj [("properties", PDict decorated_properties)].

(** The arguments that name the file of [empty_schema_world]. *)
Definition schema_json_args : cli_args :=
  CliArgs "schema.json" 5001 "0.0.0.0".

(** A schema whose [properties] is a string. *)
Definition string_properties_schema : pyval :=
  obj [("properties", PStr "oops")].

(** A process whose schema path names nothing. *)
Definition missing_world : world :=
  World (Some "schema.json") ∅.

(** A process whose schema path names a file holding the empty
    schema. *)
Definition empty_schema_world : world :=
  World (Some "schema.json") {["schema.json" := FsFile true "{}"]}.

(** A process whose schema path names a directory. *)
Definition directory_world : world :=
  World (Some "schemas") {["schemas" := FsDir]}.

(** A heap holding a schema with a string property that has a default,
    an integer property whose default is a list, and a boolean
    property. *)
Definition demo_heap : gmap Heap.loc Heap.obj :=
  list_to_map
    [ (1%positive, Heap.ODict (list_to_map [("properties", Heap.VRef 2%positive)]));
      (2%positive, Heap.ODict (list_to_map [("x", Heap.VRef 3%positive);
                                       ("n", Heap.VRef 4%positive);
                                       ("b", Heap.VRef 5%positive)]));
      (3%positive, Heap.ODict (list_to_map [("type", Heap.VStr "string");
                                       ("default", Heap.VStr "hi")]));
      (4%positive, Heap.ODict (list_to_map [("type", Heap.VStr "integer");
                                       ("default", Heap.VRef 6%positive)]));
      (5%positive, Heap.ODict (list_to_map [("type", Heap.VStr "boolean")]));
      (6%positive, Heap.OList [Heap.VInt 1]) ].

(** A submission for the schema of [demo_heap]. *)
Definition demo_submission : gmap string string :=
  list_to_map [("n", "12"); ("x", "y"); ("z", "1")].

End Examples.

(** ** Reading the schema *)

Section SchemaFacts.
Context `{PyBuiltins}.

Lemma schema_properties_items schema props :
  schema_properties schema = Some props →
  py_get schema "properties" (PDict ∅) ≫= py_items = Ok (map_to_list props).
Proof.
  destruct schema as [| | | | | |d]; simpl; try discriminate.
  destruct (d !! "properties") as [[| | | | | |p]|] eqn:E;
    simpl; intros [= <-]; try reflexivity.
Qed.

Lemma schema_properties_none schema :
  schema_properties schema = None →
  py_get schema "properties" (PDict ∅) ≫= py_items = Raise AttributeError.
Proof.
  destruct schema as [| | | | | |d]; simpl; try reflexivity.
  destruct (d !! "properties") as [[| | | | | |p]|] eqn:E;
    simpl; intros; try reflexivity; discriminate.
Qed.

Lemma declared_default_dict ps :
  is_dict ps = true →
  py_contains "default" ps = Ok (bool_decide (is_Some (declared_default ps))).
Proof. destruct ps; simpl; try discriminate; reflexivity. Qed.

(** ** The defaults loop *)

Lemma default_step_ok item values values' :
  default_step item values = Ok values' →
  values' = default_update item values.
Proof.
  destruct item as [name ps]. unfold default_step, default_update.
  destruct ps as [| | | | s | l | d]; simpl; try discriminate.
  - case_bool_decide; simpl; [discriminate | congruence].
  - destruct (existsb _ l); simpl; [discriminate | congruence].
  - destruct (d !! "default") as [v|] eqn:E; simpl; congruence.
Qed.

Lemma default_step_dict name ps values :
  is_dict ps = true →
  default_step (name, ps) values = Ok (default_update (name, ps) values).
Proof.
  destruct ps as [| | | | | | d]; try discriminate. intros _.
  unfold default_step, default_update. simpl.
  by destruct (d !! "default") as [v|] eqn:E.
Qed.

Lemma default_loop_lookup items values res :
  NoDup items.*1 →
  for_each default_step items values = Ok res →
  ∀ k, res !! k =
       match list_to_map (M := gmap string pyval) items !! k ≫= declared_default with
       | Some v => Some v
       | None => values !! k
       end.
Proof.
  revert values. induction items as [|[name ps] items IH]; intros values Hnd Hrun k.
  - simpl in *. injection Hrun as <-. by rewrite lookup_empty.
  - cbn [for_each] in Hrun. apply NoDup_cons in Hnd as [Hfresh Hnd].
    destruct (default_step (name, ps) values) as [values'|] eqn:Hstep;
      [|discriminate].
    apply default_step_ok in Hstep. subst values'.
    rewrite (IH _ Hnd Hrun k). simpl.
    destruct (decide (k = name)) as [->|Hne].
    + rewrite lookup_insert_eq.
      rewrite (not_elem_of_list_to_map_1 _ name) by done. simpl.
      unfold default_update. simpl.
      destruct (declared_default ps); by rewrite ?lookup_insert_eq.
    + rewrite lookup_insert_ne by done.
      destruct (list_to_map items !! k ≫= declared_default); [done|].
      unfold default_update. simpl.
      destruct (declared_default ps); by rewrite ?lookup_insert_ne.
Qed.

Lemma default_loop_total items values :
  Forall (λ item, is_dict item.2 = true) items →
  ∃ res, for_each default_step items values = Ok res.
Proof.
  revert values. induction items as [|[name ps] items IH]; intros values Hall.
  - by eexists.
  - apply Forall_cons in Hall as [Hps Hall]. cbn [for_each].
    rewrite default_step_dict by done. apply IH, Hall.
Qed.

(** The result of [get_default_values_from_schema], key by key. *)
Lemma extract_lookup schema props res :
  schema_properties schema = Some props →
  get_default_values_from_schema schema = Ok res →
  ∀ k, res !! k = props !! k ≫= declared_default.
Proof.
  intros Hprops Hrun k. unfold get_default_values_from_schema in Hrun.
  pose proof (schema_properties_items _ _ Hprops) as Hitems.
  destruct (py_get schema "properties" (PDict ∅)) as [p|]; [|discriminate].
  simpl in Hitems, Hrun. rewrite Hitems in Hrun. simpl in Hrun.
  rewrite (default_loop_lookup _ _ _ (NoDup_fst_map_to_list props) Hrun k).
  rewrite list_to_map_to_list, lookup_empty.
  by destruct (props !! k ≫= declared_default).
Qed.

Lemma extract_total schema props :
  schema_properties schema = Some props →
  property_schemas_are_mappings props →
  ∃ res, get_default_values_from_schema schema = Ok res.
Proof.
  intros Hprops Hwf. unfold get_default_values_from_schema.
  pose proof (schema_properties_items _ _ Hprops) as Hitems.
  destruct (py_get schema "properties" (PDict ∅)) as [p|]; [|discriminate].
  simpl in Hitems |- *. rewrite Hitems. simpl.
  apply default_loop_total, Forall_forall. intros [k ps] Hin.
  apply elem_of_map_to_list in Hin. exact (Hwf _ _ Hin).
Qed.

End SchemaFacts.

(** ** The coercion loops *)

Section CoercionFacts.
Context `{PyBuiltins}.

Lemma boolean_step_eq name ps config :
  boolean_step (name, ps) config =
  if is_dict ps then Ok (boolean_update (name, ps) config)
  else Raise AttributeError.
Proof.
  destruct ps; try reflexivity. unfold boolean_step, boolean_update. simpl.
  by destruct (py_eq_str _ _).
Qed.

Lemma boolean_loop_eq items config :
  for_each boolean_step items config =
  if all_dicts items then Ok (foldl (flip boolean_update) config items)
  else Raise AttributeError.
Proof.
  revert config. induction items as [|[name ps] items IH]; intros config.
  - reflexivity.
  - cbn [for_each all_dicts forallb foldl]. rewrite boolean_step_eq.
    cbn [snd]. destruct (is_dict ps); [|reflexivity].
    cbn [andb]. apply IH.
Qed.

Lemma boolean_fold_lookup items config k :
  NoDup items.*1 →
  foldl (flip boolean_update) config items !! k =
  match list_to_map (M := gmap string pyval) items !! k with
  | Some ps =>
      if has_type "boolean" ps
      then Some (PBool (bool_decide (is_Some (config !! k))))
      else config !! k
  | None => config !! k
  end.
Proof.
  revert config. induction items as [|[name ps] items IH]; intros config Hnd.
  - done.
  - apply NoDup_cons in Hnd as [Hfresh Hnd]. cbn [foldl flip].
    rewrite (IH _ Hnd). cbn [list_to_map foldr uncurry fst snd].
    unfold boolean_update. cbn [fst snd].
    destruct (decide (k = name)) as [->|Hne].
    + rewrite lookup_insert_eq.
      rewrite (not_elem_of_list_to_map_1 _ name) by done.
      destruct (has_type "boolean" ps); by rewrite ?lookup_insert_eq.
    + rewrite (lookup_insert_ne _ name k) by done.
      destruct (has_type "boolean" ps); by rewrite ?lookup_insert_ne.
Qed.

Lemma coerce_str_other ps s : numeric ps = false → coerce_str ps s = PStr s.
Proof.
  unfold numeric, coerce_str. intros [-> ->]%orb_false_iff. reflexivity.
Qed.

Lemma numeric_step_str name ps config s :
  is_dict ps = true →
  config !! name = Some (PStr s) →
  numeric_step (name, ps) config = Ok (<[name := coerce_str ps s]> config).
Proof.
  destruct ps as [| | | | | | d]; try discriminate. intros _ Hraw.
  unfold numeric_step, coerce_str. rewrite Hraw. simpl.
  destruct (py_eq_str _ "integer"); simpl.
  - destruct (int_of_str s); simpl; [done|]. by rewrite insert_id.
  - destruct (py_eq_str _ "number"); simpl.
    + destruct (float_of_str s); simpl; [done|]. by rewrite insert_id.
    + by rewrite insert_id.
Qed.

Lemma numeric_step_other name ps config :
  is_dict ps = true →
  numeric ps = false →
  numeric_step (name, ps) config = Ok config.
Proof.
  destruct ps as [| | | | | | d]; try discriminate.
  unfold numeric, numeric_step. simpl.
  intros _ [-> ->]%orb_false_iff. by destruct (config !! name).
Qed.

Lemma numeric_step_absent name ps config :
  config !! name = None → numeric_step (name, ps) config = Ok config.
Proof. intros Hk. unfold numeric_step. by rewrite Hk. Qed.

Lemma numeric_loop_lookup items config :
  NoDup items.*1 →
  all_dicts items = true →
  convertible items config →
  ∃ res, for_each numeric_step items config = Ok res ∧
    ∀ k, res !! k =
         coerce_val (list_to_map (M := gmap string pyval) items !! k)
           <$> config !! k.
Proof.
  revert config. induction items as [|[name ps] items IH];
    intros config Hnd Hdicts Hconv.
  - exists config. split; [done|]. intros k. cbn [list_to_map foldr].
    rewrite lookup_empty. by destruct (config !! k).
  - apply NoDup_cons in Hnd as [Hfresh Hnd].
    cbn [all_dicts forallb snd] in Hdicts.
    apply andb_true_iff in Hdicts as [Hps Hdicts].
    assert (∃ config', numeric_step (name, ps) config = Ok config' ∧
              (∀ k, k ≠ name → config' !! k = config !! k) ∧
              config' !! name = coerce_val (Some ps) <$> config !! name)
      as (config' & Hstep & Hother & Hname).
    { destruct (config !! name) as [raw|] eqn:Hraw.
      - destruct (Hconv name ps raw) as [[s ->]|Hnum];
          [left | done | |].
        + exists (<[name := coerce_str ps s]> config).
          rewrite (numeric_step_str _ _ _ s) by done.
          split; [done|]. split; [|by rewrite lookup_insert_eq].
          intros k Hk. by rewrite lookup_insert_ne.
        + exists config. rewrite numeric_step_other by done.
          split; [done|]. split; [done|]. rewrite Hraw. simpl.
          destruct raw; try done. by rewrite coerce_str_other.
      - exists config. rewrite numeric_step_absent by done.
        by rewrite Hraw. }
    destruct (IH config' Hnd Hdicts) as (res & Hrun & Hres).
    { intros n' ps' raw Hin Hraw. apply (Hconv n' ps' raw); [by right|].
      rewrite <- Hother; [done|]. intros ->. apply Hfresh.
      apply list_elem_of_fmap. by exists (name, ps'). }
    exists res. cbn [for_each]. rewrite Hstep. split; [done|].
    intros k. rewrite Hres. cbn [list_to_map foldr uncurry fst snd].
    destruct (decide (k = name)) as [->|Hne].
    + rewrite lookup_insert_eq, Hname.
      rewrite (not_elem_of_list_to_map_1 _ name) by done.
      by destruct (config !! name) as [[]|].
    + rewrite lookup_insert_ne by done. by rewrite Hother.
Qed.

End CoercionFacts.

(** ** The two operations, key by key *)

Section Characterisation.
Context `{PyBuiltins}.

Lemma all_dicts_map_to_list (props : gmap string pyval) :
  all_dicts (map_to_list props) = true ↔ property_schemas_are_mappings props.
Proof.
  unfold all_dicts, property_schemas_are_mappings.
  rewrite forallb_forall, map_Forall_to_list, Forall_forall.
  split.
  - intros Hall [k ps] Hin. apply (Hall (k, ps)). by apply list_elem_of_In.
  - intros Hall [k ps] Hin. apply (Hall (k, ps)). by apply list_elem_of_In.
Qed.

Lemma has_type_exclusive ps : has_type "boolean" ps = true → numeric ps = false.
Proof.
  unfold numeric. destruct ps as [| | | | | | d]; try discriminate. simpl.
  destruct (default PNone (d !! "type")) as [| | | | s | |]; try discriminate.
  simpl. intros ->%String.eqb_eq. reflexivity.
Qed.

(** On a schema whose property schemas are mappings the coercion
    returns, and its result is [coerced_value] at every key. *)
Lemma coerce_lookup schema props raw :
  schema_properties schema = Some props →
  property_schemas_are_mappings props →
  ∃ config, coerce_submission schema raw = Ok config ∧
    ∀ k, config !! k = coerced_value props raw k.
Proof.
  intros Hprops Hwf. unfold coerce_submission.
  pose proof (schema_properties_items _ _ Hprops) as Hitems.
  destruct (py_get schema "properties" (PDict ∅)) as [p|]; [|discriminate].
  cbn [mbind result_bind] in Hitems |- *. rewrite Hitems.
  cbn [mbind result_bind]. rewrite boolean_loop_eq.
  apply all_dicts_map_to_list in Hwf. rewrite Hwf.
  set (config1 := foldl (flip boolean_update) (PStr <$> raw) (map_to_list props)).
  assert (Hcfg1 : ∀ k, config1 !! k =
            match props !! k with
            | Some ps =>
                if has_type "boolean" ps
                then Some (PBool (bool_decide (is_Some (raw !! k))))
                else PStr <$> raw !! k
            | None => PStr <$> raw !! k
            end).
  { intros k. unfold config1.
    rewrite boolean_fold_lookup by apply NoDup_fst_map_to_list.
    rewrite list_to_map_to_list, lookup_fmap.
    destruct (props !! k) as [ps|]; [|done].
    destruct (has_type "boolean" ps); [|done].
    do 2 f_equal. apply bool_decide_ext. by rewrite fmap_is_Some. }
  destruct (numeric_loop_lookup (map_to_list props) config1)
    as (res & Hrun & Hres).
  - apply NoDup_fst_map_to_list.
  - done.
  - intros name ps v Hin Hv. apply elem_of_map_to_list in Hin.
    rewrite Hcfg1, Hin in Hv.
    destruct (has_type "boolean" ps) eqn:Hb.
    + right. by apply has_type_exclusive.
    + left. destruct (raw !! name) as [s|]; [|done]. exists s.
      by injection Hv.
  - exists res. split; [done|]. intros k. rewrite Hres, Hcfg1.
    rewrite list_to_map_to_list. unfold coerced_value.
    destruct (props !! k) as [ps|] eqn:Hk.
    + destruct (has_type "boolean" ps); [done|].
      by destruct (raw !! k).
    + by destruct (raw !! k).
Qed.

(** A property schema that is not a mapping makes the first loop
    raise. *)
Lemma coerce_not_mappings schema props raw :
  schema_properties schema = Some props →
  ¬ property_schemas_are_mappings props →
  coerce_submission schema raw = Raise AttributeError.
Proof.
  intros Hprops Hwf. unfold coerce_submission.
  pose proof (schema_properties_items _ _ Hprops) as Hitems.
  destruct (py_get schema "properties" (PDict ∅)) as [p|]; [|discriminate].
  cbn [mbind result_bind] in Hitems |- *. rewrite Hitems.
  cbn [mbind result_bind]. rewrite boolean_loop_eq.
  destruct (all_dicts (map_to_list props)) eqn:Hall; [|done].
  by apply all_dicts_map_to_list in Hall.
Qed.

(** A schema that is not a mapping, or whose [properties] is not,
    makes both operations raise before any property is visited. *)
Lemma coerce_no_properties schema raw :
  schema_properties schema = None →
  coerce_submission schema raw = Raise AttributeError.
Proof.
  intros Hprops. unfold coerce_submission.
  pose proof (schema_properties_none _ Hprops) as Hitems.
  destruct (py_get schema "properties" (PDict ∅)) as [p|];
    cbn [mbind result_bind] in Hitems |- *; [|congruence].
  rewrite Hitems. reflexivity.
Qed.

Lemma extract_no_properties schema :
  schema_properties schema = None →
  get_default_values_from_schema schema = Raise AttributeError.
Proof.
  intros Hprops. unfold get_default_values_from_schema.
  pose proof (schema_properties_none _ Hprops) as Hitems.
  destruct (py_get schema "properties" (PDict ∅)) as [p|];
    cbn [mbind result_bind] in Hitems |- *; [|congruence].
  rewrite Hitems. reflexivity.
Qed.

(** The key set of [coerced_value]. *)
Lemma coerced_value_is_Some props raw k :
  is_Some (coerced_value props raw k) ↔
  k ∈ dom raw ∨ k ∈ typed_properties "boolean" props.
Proof.
  unfold coerced_value, typed_properties.
  rewrite !elem_of_dom.
  assert (Hfilter : is_Some (filter (λ kv : string * pyval,
                        has_type "boolean" kv.2 = true) props !! k) ↔
                    ∃ ps, props !! k = Some ps ∧ has_type "boolean" ps = true).
  { split.
    - intros [ps Hps]. apply map_lookup_filter_Some in Hps. by exists ps.
    - intros (ps & Hps & Hb). exists ps. by apply map_lookup_filter_Some. }
  rewrite Hfilter.
  destruct (props !! k) as [ps|] eqn:Hk.
  - destruct (has_type "boolean" ps) eqn:Hb.
    + split; [|by eauto]. intros _. right. by exists ps.
    + rewrite fmap_is_Some. split; [by left|].
      intros [?|(ps' & [= <-] & ?)]; [done|congruence].
  - rewrite fmap_is_Some. split; [by left|].
    intros [?|(ps' & ? & ?)]; [done|discriminate].
Qed.

End Characterisation.


(** ** The operations on the example data *)

Module Runs.
Import Examples.

Example coerce_int_success :
  coerce_submission int_schema {["n" := "42"]} = Ok {["n" := PInt 42]}.
Proof. vm_compute. reflexivity. Qed.

Example coerce_int_fallback :
  coerce_submission int_schema {["n" := "abc"]} = Ok {["n" := PStr "abc"]}.
Proof. vm_compute. reflexivity. Qed.

Example coerce_demo :
  coerce_submission demo_schema demo_form =
  Ok (list_to_map
        [ ("enabled", PBool false); ("max_tokens", PInt 42);
          ("temperature", PFloat 0.5); ("name", PStr "x");
          ("count", PStr "abc"); ("extra", PStr "1") ]).
Proof. vm_compute. reflexivity. Qed.

Example coerce_checked :
  coerce_submission demo_schema {["enabled" := "no"]} =
  Ok {["enabled" := PBool true]}.
Proof. vm_compute. reflexivity. Qed.

Example defaults_demo :
  get_default_values_from_schema demo_schema =
  Ok (list_to_map
        [ ("enabled", PBool true); ("max_tokens", PInt 256);
          ("name", PStr "hi"); ("count", PStr "many") ]).
Proof. vm_compute. reflexivity. Qed.

Example defaults_spec_example :
  get_default_values_from_schema
    (obj [("properties",
           obj [("x", obj [("type", PStr "string"); ("default", PStr "hi")]);
                ("y", obj [("type", PStr "integer")])])]) =
  Ok {["x" := PStr "hi"]}.
Proof. vm_compute. reflexivity. Qed.

Example defaults_no_properties :
  get_default_values_from_schema (obj [("title", PStr "t")]) = Ok ∅.
Proof. vm_compute. reflexivity. Qed.

(** Property schemas that are not mappings: a number is not a
    container, a string is searched for the substring. *)
Example defaults_number_schema :
  get_default_values_from_schema (obj [("properties", obj [("x", PInt 5)])]) =
  Raise TypeError.
Proof. vm_compute. reflexivity. Qed.

Example defaults_string_schema :
  get_default_values_from_schema
    (obj [("properties", obj [("x", PStr "no default here")])]) =
  Raise TypeError.
Proof. vm_compute. reflexivity. Qed.

Example defaults_string_schema_skipped :
  get_default_values_from_schema
    (obj [("properties", obj [("x", PStr "text")])]) = Ok ∅.
Proof. vm_compute. reflexivity. Qed.

Example coerce_number_schema :
  coerce_submission (obj [("properties", obj [("x", PInt 5)])]) ∅ =
  Raise AttributeError.
Proof. vm_compute. reflexivity. Qed.

Example load_empty_schema :
  load_test_schema empty_schema_world = Ok (PDict ∅).
Proof. vm_compute. reflexivity. Qed.

Example submit_empty_schema :
  submit empty_schema_world {["a" := "1"]} = Ok {["a" := PStr "1"]}.
Proof. vm_compute. reflexivity. Qed.

Example load_missing_schema :
  load_test_schema missing_world = Raise FileNotFoundError.
Proof. reflexivity. Qed.

Lemma demo_schema_properties :
  schema_properties demo_schema = Some demo_properties.
Proof. reflexivity. Qed.

Lemma demo_properties_are_mappings :
  property_schemas_are_mappings demo_properties.
Proof. apply all_dicts_map_to_list. vm_compute. reflexivity. Qed.

End Runs.

(** ** Properties of [coerce_submission] *)

Section CoercionClaims.
Context `{PyBuiltins}.

(** A result of the coercion is [coerced_value] at every key, and the
    schema it came from has mappings for property schemas. *)
Lemma coerce_ok_inv schema props raw config :
  schema_properties schema = Some props →
  coerce_submission schema raw = Ok config →
  property_schemas_are_mappings props ∧
  ∀ k, config !! k = coerced_value props raw k.
Proof.
  intros Hprops Hrun.
  destruct (decide (property_schemas_are_mappings props)) as [Hwf|Hwf].
  - split; [done|].
    destruct (coerce_lookup schema props raw Hprops Hwf) as (c & Hc & Hk).
    congruence.
  - rewrite (coerce_not_mappings _ _ raw Hprops Hwf) in Hrun. discriminate.
Qed.

Lemma coerce_total schema props raw :
  schema_properties schema = Some props →
  property_schemas_are_mappings props →
  ∃ config, coerce_submission schema raw = Ok config.
Proof.
  intros Hprops Hwf.
  destruct (coerce_lookup schema props raw Hprops Hwf) as (c & Hc & _).
  by exists c.
Qed.

Lemma coerce_dom schema props raw config :
  schema_properties schema = Some props →
  coerce_submission schema raw = Ok config →
  dom config = dom raw ∪ typed_properties "boolean" props.
Proof.
  intros Hprops Hrun.
  destruct (coerce_ok_inv _ _ _ _ Hprops Hrun) as [_ Hk].
  apply set_eq. intros k.
  rewrite elem_of_dom, Hk, coerced_value_is_Some. set_solver.
Qed.

Lemma typed_properties_subseteq ty (props : gmap string pyval) :
  typed_properties ty props ⊆ dom props.
Proof. unfold typed_properties. apply dom_filter_subseteq. Qed.

(** C1. For a schema whose [properties] is a mapping, the keys of the
    coerced configuration are exactly the keys of the raw form data
    together with the boolean-typed property names; the coercion
    returns whenever the property schemas are mappings. *)
Theorem coerce_keys_raw_and_boolean schema props raw :
  schema_properties schema = Some props →
  (∀ config, coerce_submission schema raw = Ok config →
     dom config = dom raw ∪ typed_properties "boolean" props) ∧
  (property_schemas_are_mappings props →
     ∃ config, coerce_submission schema raw = Ok config).
Proof.
  intros Hprops. split.
  - intros config. by apply coerce_dom.
  - by apply coerce_total.
Qed.

(** C2. A boolean-typed property is always a key of the coerced
    configuration, and its value is [True] exactly when the property is
    a key of the raw form data, whatever string is submitted for it. *)
Theorem boolean_true_iff_submitted schema props raw b ps :
  schema_properties schema = Some props →
  props !! b = Some ps →
  has_type "boolean" ps = true →
  (∀ config, coerce_submission schema raw = Ok config →
     config !! b = Some (PBool (bool_decide (b ∈ dom raw)))) ∧
  (property_schemas_are_mappings props →
     ∃ config, coerce_submission schema raw = Ok config).
Proof.
  intros Hprops Hb Hty. split; [|by apply coerce_total].
  intros config Hrun.
  destruct (coerce_ok_inv _ _ _ _ Hprops Hrun) as [_ Hk].
  rewrite Hk. unfold coerced_value. rewrite Hb, Hty.
  do 2 f_equal. apply bool_decide_ext. by rewrite elem_of_dom.
Qed.

(** C3. For an integer-typed property submitted with raw string [s],
    the coerced configuration holds the parsed integer when [s] parses
    and [s] itself when it does not; likewise for a number-typed
    property and the float parse.  The key is kept and nothing is
    raised. *)
Theorem numeric_parse_or_raw schema props raw p ps s :
  schema_properties schema = Some props →
  props !! p = Some ps →
  raw !! p = Some s →
  (∀ config, coerce_submission schema raw = Ok config →
     (has_type "integer" ps = true →
        config !! p = Some (match int_of_str s with
                            | Some z => PInt z
                            | None => PStr s
                            end)) ∧
     (has_type "number" ps = true →
        config !! p = Some (match float_of_str s with
                            | Some f => PFloat f
                            | None => PStr s
                            end))) ∧
  (property_schemas_are_mappings props →
     ∃ config, coerce_submission schema raw = Ok config).
Proof.
  intros Hprops Hp Hs. split; [|by apply coerce_total].
  intros config Hrun.
  destruct (coerce_ok_inv _ _ _ _ Hprops Hrun) as [_ Hk].
  rewrite Hk. unfold coerced_value. rewrite Hp, Hs.
  destruct ps as [| | | | | | d]; simpl; try (split; discriminate).
  unfold coerce_str. simpl.
  destruct (default PNone (d !! "type")) as [| | | | t | |];
    simpl; try (split; discriminate).
  split.
  - intros Ht. rewrite Ht. apply String.eqb_eq in Ht as ->. reflexivity.
  - intros Ht. apply String.eqb_eq in Ht as ->. reflexivity.
Qed.

(** C4, as the code has it. The keys of the coerced configuration are
    the boolean-typed property names together with the keys of the raw
    form data that are property names exactly when every key of the raw
    form data is a property name; every key of the raw form data is kept
    in any case. *)
Theorem coerce_keys_within_schema schema props raw :
  schema_properties schema = Some props →
  (∀ config, coerce_submission schema raw = Ok config →
     dom raw ⊆ dom config ∧
     (dom config = typed_properties "boolean" props ∪ (dom raw ∩ dom props)
      ↔ dom raw ⊆ dom props)) ∧
  (property_schemas_are_mappings props →
     ∃ config, coerce_submission schema raw = Ok config).
Proof.
  intros Hprops. split; [|by apply coerce_total].
  intros config Hrun. rewrite (coerce_dom _ _ _ _ Hprops Hrun).
  pose proof (typed_properties_subseteq "boolean" props).
  split; [apply union_subseteq_l|]. split.
  - intros Heq k Hk.
    assert (k ∈ dom raw ∪ typed_properties "boolean" props) as Hin
      by (apply elem_of_union; by left).
    rewrite Heq in Hin. apply elem_of_union in Hin as [Hin|Hin]; [auto|].
    by apply elem_of_intersection in Hin as [_ ?].
  - intros Hsub. apply set_eq. intros k.
    rewrite !elem_of_union, elem_of_intersection. split.
    + intros [Hk|Hk]; [right; split; [done|by apply Hsub] | by left].
    + intros [Hk|[Hk _]]; [by right | by left].
Qed.

(** C10. A key of the raw form data that is not a property name of the
    schema is kept in the coerced configuration with its raw string. *)
Theorem unknown_fields_pass_through schema props raw k s :
  schema_properties schema = Some props →
  props !! k = None →
  raw !! k = Some s →
  (∀ config, coerce_submission schema raw = Ok config →
     config !! k = Some (PStr s)) ∧
  (property_schemas_are_mappings props →
     ∃ config, coerce_submission schema raw = Ok config).
Proof.
  intros Hprops Hk Hs. split; [|by apply coerce_total].
  intros config Hrun.
  destruct (coerce_ok_inv _ _ _ _ Hprops Hrun) as [_ Hcfg].
  rewrite Hcfg. unfold coerced_value. by rewrite Hk, Hs.
Qed.

End CoercionClaims.

(** ** Properties of [get_default_values_from_schema] *)

Section DefaultsClaims.
Context `{PyBuiltins}.

Lemma extract_absent_properties d :
  d !! "properties" = None →
  get_default_values_from_schema (PDict d) = Ok ∅.
Proof.
  intros Hd. unfold get_default_values_from_schema, py_get. rewrite Hd.
  cbn [default mbind result_bind py_items]. by rewrite map_to_list_empty.
Qed.

(** C6. For a schema whose [properties] is a mapping, the extracted
    defaults hold exactly the properties that declare a [default], each
    with that value as it stands; their keys are property names; the
    extraction returns whenever the property schemas are mappings, and a
    schema without [properties] gives the empty result. *)
Theorem extract_defaults_exact schema props :
  schema_properties schema = Some props →
  (∀ values, get_default_values_from_schema schema = Ok values →
     (∀ k v, values !! k = Some v ↔
             ∃ ps, props !! k = Some ps ∧ declared_default ps = Some v) ∧
     dom values ⊆ dom props) ∧
  (property_schemas_are_mappings props →
     ∃ values, get_default_values_from_schema schema = Ok values) ∧
  (∀ d, schema = PDict d → d !! "properties" = None →
     get_default_values_from_schema schema = Ok ∅).
Proof.
  intros Hprops. split; [|split].
  - intros values Hrun.
    pose proof (extract_lookup _ _ _ Hprops Hrun) as Hk.
    assert (Hiff : ∀ k v, values !! k = Some v ↔
              ∃ ps, props !! k = Some ps ∧ declared_default ps = Some v).
    { intros k v. rewrite Hk. destruct (props !! k) as [ps|]; simpl.
      - split; [by exists ps|]. by intros (ps' & [= <-] & ?).
      - split; [done|]. by intros (ps' & ? & ?). }
    split; [done|]. intros k [v Hv]%elem_of_dom.
    apply Hiff in Hv as (ps & Hps & _). apply elem_of_dom. by exists ps.
  - by apply extract_total.
  - intros d -> Hd. by apply extract_absent_properties.
Qed.

(** C9. A declared [default] is copied into the result as it stands,
    whatever [type] the property declares and whatever the dynamic type
    of the default is. *)
Theorem default_copied_whatever_type schema props p ps v :
  schema_properties schema = Some props →
  props !! p = Some ps →
  declared_default ps = Some v →
  (∀ values, get_default_values_from_schema schema = Ok values →
     values !! p = Some v) ∧
  (property_schemas_are_mappings props →
     ∃ values, get_default_values_from_schema schema = Ok values).
Proof.
  intros Hprops Hp Hv. split; [|by apply extract_total].
  intros values Hrun. rewrite (extract_lookup _ _ _ Hprops Hrun).
  by rewrite Hp.
Qed.

(** ** Failures *)

Lemma default_step_raises item values e :
  default_step item values = Raise e → e = TypeError.
Proof.
  destruct item as [name ps]. unfold default_step.
  destruct ps as [| | | | s | l | d]; simpl; try congruence.
  - case_bool_decide; simpl; congruence.
  - destruct (existsb _ l); simpl; congruence.
  - destruct (d !! "default"); simpl; congruence.
Qed.

Lemma default_loop_raises items values e :
  for_each default_step items values = Raise e → e = TypeError.
Proof.
  revert values. induction items as [|item items IH]; intros values.
  - discriminate.
  - cbn [for_each].
    destruct (default_step item values) as [values'|e'] eqn:Hstep.
    + apply IH.
    + intros [= <-]. by apply default_step_raises in Hstep.
Qed.

Lemma extract_raises schema e :
  get_default_values_from_schema schema = Raise e →
  e = AttributeError ∨ e = TypeError.
Proof.
  unfold get_default_values_from_schema.
  destruct (schema_properties schema) as [props|] eqn:Hprops.
  - pose proof (schema_properties_items _ _ Hprops) as Hitems.
    destruct (py_get schema "properties" (PDict ∅)) as [p|]; [|discriminate].
    cbn [mbind result_bind] in Hitems |- *. rewrite Hitems.
    cbn [mbind result_bind]. intros Hrun. right.
    by apply default_loop_raises in Hrun.
  - intros Hrun. left.
    pose proof (extract_no_properties _ Hprops) as Hraise.
    unfold get_default_values_from_schema in Hraise. congruence.
Qed.

Lemma coerce_ok_iff schema raw :
  is_ok (coerce_submission schema raw) = true ↔ flat_schema schema.
Proof.
  split.
  - destruct (coerce_submission schema raw) as [config|] eqn:Hrun;
      [intros _|discriminate].
    destruct (schema_properties schema) as [props|] eqn:Hprops.
    + exists props. split; [done|].
      by destruct (coerce_ok_inv _ _ _ _ Hprops Hrun).
    + by rewrite coerce_no_properties in Hrun.
  - intros (props & Hprops & Hwf).
    destruct (coerce_total _ _ raw Hprops Hwf) as [config ->]. done.
Qed.

(** C5, as the code has it. Whether either operation raises is decided
    by the shape of the schema alone, never by the submitted strings: a
    schema that is not a mapping, or whose [properties] is present and
    not a mapping, makes both raise [AttributeError]; the coercion
    returns exactly when the schema is flat, and raises nothing but
    [AttributeError]; the extraction returns on every flat schema, and
    raises nothing but [AttributeError] and [TypeError]. *)
Theorem failures_come_from_schema_shape schema raw :
  (schema_properties schema = None →
     get_default_values_from_schema schema = Raise AttributeError ∧
     coerce_submission schema raw = Raise AttributeError) ∧
  (is_ok (coerce_submission schema raw) = true ↔ flat_schema schema) ∧
  (flat_schema schema → is_ok (get_default_values_from_schema schema) = true) ∧
  (∀ raw', is_ok (coerce_submission schema raw') =
           is_ok (coerce_submission schema raw)) ∧
  (∀ e, coerce_submission schema raw = Raise e → e = AttributeError) ∧
  (∀ e, get_default_values_from_schema schema = Raise e →
        e = AttributeError ∨ e = TypeError).
Proof.
  split; [|split; [|split; [|split; [|split]]]].
  - intros Hnone. split.
    + by apply extract_no_properties.
    + by apply coerce_no_properties.
  - apply coerce_ok_iff.
  - intros (props & Hprops & Hwf).
    destruct (extract_total _ _ Hprops Hwf) as [values ->]. done.
  - intros raw'.
    destruct (is_ok (coerce_submission schema raw)) eqn:E1.
    + apply coerce_ok_iff in E1. by apply coerce_ok_iff.
    + destruct (is_ok (coerce_submission schema raw')) eqn:E2; [|done].
      apply coerce_ok_iff in E2. apply (coerce_ok_iff schema raw) in E2.
      congruence.
  - intros e Hrun.
    destruct (schema_properties schema) as [props|] eqn:Hprops.
    + destruct (decide (property_schemas_are_mappings props)) as [Hwf|Hwf].
      * destruct (coerce_total _ _ raw Hprops Hwf) as [config Hok].
        congruence.
      * rewrite (coerce_not_mappings _ _ raw Hprops Hwf) in Hrun. congruence.
    + rewrite coerce_no_properties in Hrun by done. congruence.
  - apply extract_raises.
Qed.

(** ** The loader *)

(** C8, as the code has it. With a path that does not resolve to a
    readable file the loader returns no document: it raises
    [FileNotFoundError] when nothing exists at the path, and the error
    of [open] when something other than a readable file does. *)
Theorem load_fails_without_readable_file w p :
  SCHEMA_PATH w = Some p →
  readable_file w p = false →
  (path_exists w p = false →
     load_test_schema w = Raise FileNotFoundError) ∧
  (path_exists w p = true →
     load_test_schema w = Raise IsADirectoryError ∨
     load_test_schema w = Raise PermissionError).
Proof.
  intros Hp Hread. unfold load_test_schema, path_exists, open_read.
  unfold readable_file in Hread. rewrite Hp.
  destruct (files w !! p) as [[|[|] content]|] eqn:Hnode; try discriminate.
  - split; [by rewrite bool_decide_eq_true_2 by eauto|]. intros _. by left.
  - split; [by rewrite bool_decide_eq_true_2 by eauto|]. intros _. by right.
  - split; [done|]. by rewrite bool_decide_eq_false_2 by (by intros [? ?]).
Qed.

End DefaultsClaims.



(** ** Further properties of the coercion *)

Section CoercionExtras.
Context `{PyBuiltins}.

(** X1. A submitted property that is typed neither [boolean], nor
    [integer], nor [number] (a string, any other type, or none) keeps
    its raw string. *)
Theorem untyped_field_keeps_raw_string schema props raw p ps s :
  schema_properties schema = Some props →
  props !! p = Some ps →
  has_type "boolean" ps = false →
  numeric ps = false →
  raw !! p = Some s →
  (∀ config, coerce_submission schema raw = Ok config →
     config !! p = Some (PStr s)) ∧
  (property_schemas_are_mappings props →
     ∃ config, coerce_submission schema raw = Ok config).
Proof.
  intros Hprops Hp Hb Hn Hs. split; [|by apply coerce_total].
  intros config Hrun.
  destruct (coerce_ok_inv _ _ _ _ Hprops Hrun) as [_ Hk].
  rewrite Hk. unfold coerced_value. rewrite Hp, Hb, Hs. simpl.
  by rewrite coerce_str_other.
Qed.

(** X2. A property that is not typed [boolean] and is not submitted is
    left out of the configuration, also when its schema declares a
    [default]: the coercion never fills in defaults. *)
Theorem absent_field_is_not_defaulted schema props raw p ps :
  schema_properties schema = Some props →
  props !! p = Some ps →
  has_type "boolean" ps = false →
  raw !! p = None →
  (∀ config, coerce_submission schema raw = Ok config →
     config !! p = None) ∧
  (property_schemas_are_mappings props →
     ∃ config, coerce_submission schema raw = Ok config).
Proof.
  intros Hprops Hp Hb Hs. split; [|by apply coerce_total].
  intros config Hrun.
  destruct (coerce_ok_inv _ _ _ _ Hprops Hrun) as [_ Hk].
  rewrite Hk. unfold coerced_value. by rewrite Hp, Hb, Hs.
Qed.

Lemma elem_of_typed_properties ty (props : gmap string pyval) k :
  k ∈ typed_properties ty props ↔
  ∃ ps, props !! k = Some ps ∧ has_type ty ps = true.
Proof.
  unfold typed_properties. rewrite elem_of_dom. split.
  - intros [ps Hps]. apply map_lookup_filter_Some in Hps. by exists ps.
  - intros (ps & Hps & Hty). exists ps. by apply map_lookup_filter_Some.
Qed.

(** X3. Every value of the coerced configuration is a string, a
    boolean, an integer or a float, and its kind is licensed by the
    schema: a string is the raw string submitted under that key, a
    boolean belongs to a [boolean] property, an integer is the parse of
    the raw string of an [integer] property, a float that of a [number]
    property. *)
Theorem coerced_values_are_typed_scalars schema props raw :
  schema_properties schema = Some props →
  (∀ config k v, coerce_submission schema raw = Ok config →
     config !! k = Some v →
     match v with
     | PStr s => raw !! k = Some s
     | PBool b => k ∈ typed_properties "boolean" props
     | PInt z =>
         k ∈ typed_properties "integer" props ∧
         ∃ s, raw !! k = Some s ∧ int_of_str s = Some z
     | PFloat f =>
         k ∈ typed_properties "number" props ∧
         ∃ s, raw !! k = Some s ∧ float_of_str s = Some f
     | PNone | PList _ | PDict _ => False
     end) ∧
  (property_schemas_are_mappings props →
     ∃ config, coerce_submission schema raw = Ok config).
Proof.
  intros Hprops. split; [|by apply coerce_total].
  intros config k v Hrun Hv.
  destruct (coerce_ok_inv _ _ _ _ Hprops Hrun) as [_ Hk].
  rewrite Hk in Hv. unfold coerced_value in Hv.
  destruct (props !! k) as [ps|] eqn:Hps.
  - destruct (has_type "boolean" ps) eqn:Hb.
    + injection Hv as <-. apply elem_of_typed_properties. by exists ps.
    + destruct (raw !! k) as [s|] eqn:Hs; [|discriminate].
      injection Hv as <-. unfold coerce_str.
      destruct (has_type "integer" ps) eqn:Hi.
      * destruct (int_of_str s) as [z|] eqn:Hz; [|done].
        split; [apply elem_of_typed_properties; by exists ps|by exists s].
      * destruct (has_type "number" ps) eqn:Hn; [|done].
        destruct (float_of_str s) as [f|] eqn:Hf; [|done].
        split; [apply elem_of_typed_properties; by exists ps|by exists s].
  - destruct (raw !! k) as [s|] eqn:Hs; [|discriminate]. by injection Hv as <-.
Qed.

(** X4. The entry of the configuration under a key depends on the
    other submitted fields in no way: two submissions that agree on that
    key get the same entry, whatever fails to parse elsewhere. *)
Theorem coerced_entry_is_local schema props raw raw' k :
  schema_properties schema = Some props →
  raw !! k = raw' !! k →
  (∀ config config',
     coerce_submission schema raw = Ok config →
     coerce_submission schema raw' = Ok config' →
     config !! k = config' !! k) ∧
  (property_schemas_are_mappings props →
     ∃ config config',
       coerce_submission schema raw = Ok config ∧
       coerce_submission schema raw' = Ok config').
Proof.
  intros Hprops Hk. split.
  - intros config config' Hrun Hrun'.
    destruct (coerce_ok_inv _ _ _ _ Hprops Hrun) as [_ Hc].
    destruct (coerce_ok_inv _ _ _ _ Hprops Hrun') as [_ Hc'].
    rewrite Hc, Hc'. unfold coerced_value. by rewrite Hk.
  - intros Hwf.
    destruct (coerce_total _ _ raw Hprops Hwf) as [config ?].
    destruct (coerce_total _ _ raw' Hprops Hwf) as [config' ?].
    by exists config, config'.
Qed.

Lemma coerce_str_same_kind ps ps' s :
  same_kind ps ps' → coerce_str ps s = coerce_str ps' s.
Proof. intros (_ & Hi & Hn). unfold coerce_str. by rewrite Hi, Hn. Qed.

(** X5. Of a property schema the coercion reads the [type] only: two
    schemas with the same property names whose property schemas declare
    the same kinds of field coerce every submission to the same
    configuration, whatever defaults, titles or descriptions they
    carry. *)
Theorem coercion_reads_types_only schema schema' props props' raw :
  schema_properties schema = Some props →
  schema_properties schema' = Some props' →
  (∀ k, option_Forall2 same_kind (props !! k) (props' !! k)) →
  (∀ config config',
     coerce_submission schema raw = Ok config →
     coerce_submission schema' raw = Ok config' →
     config = config') ∧
  (property_schemas_are_mappings props →
   property_schemas_are_mappings props' →
     ∃ config,
       coerce_submission schema raw = Ok config ∧
       coerce_submission schema' raw = Ok config).
Proof.
  intros Hprops Hprops' Hkind.
  assert (Hsame : ∀ config config',
            coerce_submission schema raw = Ok config →
            coerce_submission schema' raw = Ok config' →
            config = config').
  { intros config config' Hrun Hrun'.
    destruct (coerce_ok_inv _ _ _ _ Hprops Hrun) as [_ Hc].
    destruct (coerce_ok_inv _ _ _ _ Hprops' Hrun') as [_ Hc'].
    apply map_eq. intros k. rewrite Hc, Hc'. unfold coerced_value.
    destruct (Hkind k) as [ps ps' Hps|]; [|done].
    pose proof Hps as (Hb & _ & _). rewrite <- Hb.
    destruct (has_type "boolean" ps); [done|].
    destruct (raw !! k) as [s|]; [|done]. simpl.
    by rewrite (coerce_str_same_kind ps ps' s Hps). }
  split; [done|]. intros Hwf Hwf'.
  destruct (coerce_total _ _ raw Hprops Hwf) as [config Hrun].
  destruct (coerce_total _ _ raw Hprops' Hwf') as [config' Hrun'].
  exists config. split; [done|]. by rewrite (Hsame config config').
Qed.

End CoercionExtras.

(** ** Further properties of the extraction, the loader and the handlers *)

Section HandlerExtras.
Context `{PyBuiltins}.

Lemma default_step_eq name ps values :
  default_step (name, ps) values =
  if default_lookup_raises ps then Raise TypeError
  else Ok (default_update (name, ps) values).
Proof.
  unfold default_step, default_update, default_lookup_raises.
  destruct ps as [| | | | s | l | d]; simpl; try reflexivity.
  by destruct (d !! "default").
Qed.

Lemma default_loop_ok_iff items values :
  is_ok (for_each default_step items values) = true ↔
  Forall (λ item, default_lookup_raises item.2 = false) items.
Proof.
  revert values. induction items as [|[name ps] items IH]; intros values.
  - split; [constructor|done].
  - cbn [for_each]. rewrite default_step_eq, Forall_cons. cbn [snd].
    destruct (default_lookup_raises ps).
    + split; [done|]. by intros [? _].
    + rewrite IH. split; [done|]. by intros [_ ?].
Qed.

(** X6. On a schema whose [properties] is a mapping, the extraction of
    defaults fails exactly when some property schema is a number, a
    boolean or null, a string containing the word [default], or a list
    holding the string [default]; what it then raises is [TypeError].
    Other strings and lists are passed over as declaring no default. *)
Theorem extraction_fails_on_searched_schemas schema props :
  schema_properties schema = Some props →
  (is_ok (get_default_values_from_schema schema) = true ↔
   map_Forall (λ _ ps, default_lookup_raises ps = false) props) ∧
  (∀ e, get_default_values_from_schema schema = Raise e → e = TypeError).
Proof.
  intros Hprops. unfold get_default_values_from_schema.
  pose proof (schema_properties_items _ _ Hprops) as Hitems.
  destruct (py_get schema "properties" (PDict ∅)) as [p|]; [|discriminate].
  cbn [mbind result_bind] in Hitems |- *. rewrite Hitems.
  cbn [mbind result_bind]. split.
  - rewrite default_loop_ok_iff, map_Forall_to_list, !Forall_forall.
    split; intros Hall [k ps] Hin; apply (Hall (k, ps) Hin).
  - intros e. apply default_loop_raises.
Qed.

Lemma load_ok_iff w doc :
  load_test_schema w = Ok doc ↔
  ∃ p text, SCHEMA_PATH w = Some p ∧
            files w !! p = Some (FsFile true text) ∧
            json_loads text = Some doc.
Proof.
  unfold load_test_schema, path_exists, open_read, json_load.
  destruct (SCHEMA_PATH w) as [p|].
  - destruct (files w !! p) as [[|[|] txt]|] eqn:Hnode.
    + rewrite bool_decide_eq_true_2 by eauto. simpl.
      split; [done|]. intros (p' & text & [= <-] & Hf & _). congruence.
    + rewrite bool_decide_eq_true_2 by eauto. simpl.
      destruct (json_loads txt) as [v|] eqn:Hv.
      * split.
        -- intros [= <-]. by exists p, txt.
        -- intros (p' & text & [= <-] & Hf & Hj). congruence.
      * split; [done|]. intros (p' & text & [= <-] & Hf & Hj). congruence.
    + rewrite bool_decide_eq_true_2 by eauto. simpl.
      split; [done|]. intros (p' & text & [= <-] & Hf & _). congruence.
    + rewrite bool_decide_eq_false_2 by (by intros [? ?]). simpl.
      split; [done|]. intros (p' & text & [= <-] & Hf & _). congruence.
  - split; [done|]. by intros (p & text & ? & _).
Qed.


Lemma coerce_raise_any_form schema raw raw' e :
  coerce_submission schema raw = Raise e →
  coerce_submission schema raw' = Raise e.
Proof.
  intros Hrun. destruct (schema_properties schema) as [props|] eqn:Hprops.
  - destruct (decide (property_schemas_are_mappings props)) as [Hwf|Hwf].
    + destruct (coerce_total _ _ raw Hprops Hwf) as [config Hok]. congruence.
    + rewrite (coerce_not_mappings _ _ raw Hprops Hwf) in Hrun.
      rewrite (coerce_not_mappings _ _ raw' Hprops Hwf). done.
  - rewrite coerce_no_properties in Hrun by done.
    by rewrite coerce_no_properties.
Qed.

(** X8. The submit handler returns a configuration exactly when the
    schema path is set and names a readable file whose text parses to a
    flat schema. *)
Theorem submit_returns_iff_flat_schema_file w raw :
  is_ok (submit w raw) = true ↔
  ∃ p text schema, SCHEMA_PATH w = Some p ∧
                   files w !! p = Some (FsFile true text) ∧
                   json_loads text = Some schema ∧
                   flat_schema schema.
Proof.
  unfold submit. split.
  - destruct (load_test_schema w) as [schema|] eqn:Hload; [|done].
    cbn [mbind result_bind]. intros Hok.
    apply load_ok_iff in Hload as (p & text & Hp & Hf & Hj).
    exists p, text, schema. repeat split; try done.
    by apply (coerce_ok_iff schema raw).
  - intros (p & text & schema & Hp & Hf & Hj & Hflat).
    assert (load_test_schema w = Ok schema) as ->
      by (apply load_ok_iff; by exists p, text).
    cbn [mbind result_bind]. by apply coerce_ok_iff.
Qed.

Lemma submit_raises_inv w raw e :
  submit w raw = Raise e →
  load_test_schema w = Raise e ∨
  e = AttributeError ∧
  ∃ schema, load_test_schema w = Ok schema ∧
            coerce_submission schema raw = Raise AttributeError.
Proof.
  unfold submit.
  destruct (load_test_schema w) as [schema|e'] eqn:Hload;
    cbn [mbind result_bind]; [|intros [= <-]; by left].
  intros Hrun. right.
  assert (e = AttributeError) as ->.
  { destruct (schema_properties schema) as [props|] eqn:Hprops.
    - destruct (decide (property_schemas_are_mappings props)) as [Hwf|Hwf].
      + destruct (coerce_total _ _ raw Hprops Hwf) as [c Hok]. congruence.
      + rewrite (coerce_not_mappings _ _ raw Hprops Hwf) in Hrun. congruence.
    - rewrite coerce_no_properties in Hrun by done. congruence. }
  split; [done|]. by exists schema.
Qed.

(** X9. Whether and how the submit handler fails does not depend on
    what is submitted: an exception raised for one form is raised for
    every form.  It is the loader's exception, or [AttributeError] for
    a loaded schema that is not flat. *)
Theorem submit_failure_ignores_the_form w raw e :
  submit w raw = Raise e →
  (∀ raw', submit w raw' = Raise e) ∧
  (load_test_schema w = Raise e ∨
   e = AttributeError ∧
   ∃ schema, load_test_schema w = Ok schema ∧ ¬ flat_schema schema).
Proof.
  intros Hrun.
  destruct (submit_raises_inv w raw e Hrun)
    as [Hload|(-> & schema & Hload & Hco)].
  - split; [|by left]. intros raw'. unfold submit. by rewrite Hload.
  - split.
    + intros raw'. unfold submit. rewrite Hload. cbn [mbind result_bind].
      by apply (coerce_raise_any_form schema raw).
    + right. split; [done|]. exists schema. split; [done|]. intros Hflat.
      apply (coerce_ok_iff schema raw) in Hflat. by rewrite Hco in Hflat.
Qed.

(** X10. When the page handler reaches the form generator, the schema
    it passes is the one the loader returns, its [properties] is absent
    or a mapping, and the values it passes are exactly the defaults
    that schema declares, under keys that are property names. *)
Theorem index_passes_the_declared_defaults w schema values :
  index_form_inputs w = Ok (schema, values) →
  load_test_schema w = Ok schema ∧
  ∃ props, schema_properties schema = Some props ∧
           (∀ k, values !! k = props !! k ≫= declared_default) ∧
           dom values ⊆ dom props.
Proof.
  unfold index_form_inputs.
  destruct (load_test_schema w) as [schema'|] eqn:Hload; [|done].
  cbn [mbind result_bind].
  destruct (get_default_values_from_schema schema') as [values'|] eqn:Hrun;
    [|done].
  cbn [mbind result_bind]. intros [= <- <-]. split; [done|].
  destruct (schema_properties schema') as [props|] eqn:Hprops.
  - exists props. split; [done|].
    pose proof (extract_lookup _ _ _ Hprops Hrun) as Hk. split; [done|].
    intros k [v Hv]%elem_of_dom. rewrite Hk in Hv. apply elem_of_dom.
    destruct (props !! k); [by eexists|done].
  - by rewrite extract_no_properties in Hrun.
Qed.


Lemma read_schema_info_ok w p t d :
  path_exists w p = true →
  SCHEMA_PATH w = Some p →
  (read_schema_info w p = Ok (t, d) ↔
   ∃ doc, load_test_schema w = Ok (PDict doc) ∧
          t = default (PStr "Unknown") (doc !! "title") ∧
          d = default (PStr "No description") (doc !! "description")).
Proof.
  intros Hex Hp. unfold read_schema_info, load_test_schema.
  rewrite Hp, Hex. cbn [negb].
  destruct (open_read w p) as [text|]; cbn [mbind result_bind].
  2: { split; [done|]. by intros (doc & ? & _). }
  destruct (json_load text) as [schema|]; cbn [mbind result_bind].
  2: { split; [done|]. by intros (doc & ? & _). }
  destruct schema as [| | | | | |doc]; cbn [py_get mbind result_bind];
    try (split; [done|]; by intros (doc' & ? & _)).
  split.
  - intros [= <- <-]. by exists doc.
  - intros (doc' & [= <-] & -> & ->). done.
Qed.



(** X13. Once the entry point serves, the loader no longer fails in
    the state it leaves: the submit handler can raise nothing but
    [AttributeError], and the page handler fails before the form
    generator with nothing but [AttributeError] or [TypeError], in both
    cases for a schema whose [properties] are malformed. *)
Theorem served_handlers_fail_only_on_properties w0 args w t d host port :
  main w0 args = Serve w t d host port →
  (∃ doc, load_test_schema w = Ok (PDict doc)) ∧
  (∀ raw e, submit w raw = Raise e → e = AttributeError) ∧
  (∀ e, index_form_inputs w = Raise e →
        e = AttributeError ∨ e = TypeError).
Proof.
  intros Hmain.
  assert (∃ doc, load_test_schema w = Ok (PDict doc)) as [doc Hload].
  { unfold main in Hmain.
    set (w1 := World (Some (arg_schema args)) (files w0)) in Hmain.
    destruct (path_exists w1 (arg_schema args)) eqn:Hex;
      cbn [negb] in Hmain; [|done].
    destruct (read_schema_info w1 (arg_schema args)) as [[t' d']|] eqn:Hread;
      [|done].
    injection Hmain as <- _ _ _ _.
    apply (read_schema_info_ok w1 _ t' d' Hex eq_refl) in Hread
      as (doc & Hload & _).
    by exists doc. }
  split; [by exists doc|]. split.
  - intros raw e Hrun.
    destruct (submit_raises_inv w raw e Hrun) as [Hl|[-> _]];
      [congruence|done].
  - intros e. unfold index_form_inputs. rewrite Hload.
    cbn [mbind result_bind].
    destruct (get_default_values_from_schema (PDict doc)) as [v|e'] eqn:Hrun;
      cbn [mbind result_bind]; [done|].
    intros [= <-]. by apply extract_raises in Hrun.
Qed.

End HandlerExtras.

(** ** The heap operations write only what they create *)

Module HeapFacts.
Import Heap.

Section HeapRuns.
Context `{PyBuiltins}.

Lemma run_bind {A B : Type} (m : M A) (f : A → M B) (h : gmap loc obj) :
  (m ≫= f) h =
  match m h with
  | (Ok a, h') => f a h'
  | (Raise e, h') => (Raise e, h')
  end.
Proof. reflexivity. Qed.

Lemma run_ret {A : Type} (a : A) (h : gmap loc obj) : mret (M := M) a h = (Ok a, h).
Proof. reflexivity. Qed.

Ltac run_prim :=
  unfold py_get, py_items, py_contains, py_getitem, dict_of, lookup_obj,
    alloc, raise, mbind, M_bind, fmap, M_fmap, mret, M_ret;
  cbn beta iota.

Lemma fresh_not_allocated (h : gmap loc obj) : h !! fresh (dom h) = None.
Proof. apply not_elem_of_dom, is_fresh. Qed.

(** Reading an allocated value gives the same object in a larger heap. *)
Lemma deref_extend (h0 h : gmap loc obj) v :
  h0 ⊆ h → val_allocated h0 v → deref h v = deref h0 v.
Proof.
  intros Hsub Hv. destruct v as [| | | | |l]; try reflexivity.
  simpl in *. apply elem_of_dom in Hv as [o Ho]. rewrite Ho.
  by apply (lookup_weaken h0).
Qed.

Lemma extend_insert_fresh (h0 h : gmap loc obj) l o :
  h0 ⊆ h → h0 !! l = None → h0 ⊆ <[l := o]> h.
Proof. intros Hsub Hl. by apply insert_subseteq_r. Qed.

Lemma closed_dict_values (h0 : gmap loc obj) l d k v :
  closed h0 → h0 !! l = Some (ODict d) → d !! k = Some v →
  val_allocated h0 v.
Proof. intros Hc Hl Hk. exact (Hc l _ Hl k v Hk). Qed.

Lemma closed_dict_items (h0 : gmap loc obj) l d :
  closed h0 → h0 !! l = Some (ODict d) →
  Forall (λ item, val_allocated h0 item.2) (map_to_list d).
Proof.
  intros Hc Hl. apply Forall_forall. intros [k v] Hin.
  apply elem_of_map_to_list in Hin. by eapply closed_dict_values.
Qed.

Lemma py_get_alloc_run (h : gmap loc obj) v k :
  py_get v k (VRef <$> alloc (ODict ∅)) h =
  match deref h v with
  | Some (ODict d) =>
      (Ok (default (VRef (fresh (dom h))) (d !! k)),
       <[fresh (dom h) := ODict ∅]> h)
  | _ => (Raise AttributeError, h)
  end.
Proof.
  run_prim.
  destruct (deref h v) as [[d|l]|] eqn:Hv; try reflexivity.
  destruct v as [| | | | |lv]; try discriminate. simpl in Hv |- *.
  rewrite lookup_insert_ne, Hv; [reflexivity|].
  intros <-. by rewrite fresh_not_allocated in Hv.
Qed.

Lemma py_get_run (h : gmap loc obj) v k dv :
  py_get v k (mret dv) h =
  match deref h v with
  | Some (ODict d) => (Ok (default dv (d !! k)), h)
  | _ => (Raise AttributeError, h)
  end.
Proof.
  run_prim.
  destruct (deref h v) as [[d|l]|] eqn:Hv; try reflexivity.
  by rewrite Hv.
Qed.

Lemma py_items_run (h : gmap loc obj) v :
  py_items v h =
  match deref h v with
  | Some (ODict d) => (Ok (map_to_list d), h)
  | _ => (Raise AttributeError, h)
  end.
Proof.
  run_prim. by destruct (deref h v) as [[d|l]|].
Qed.

Lemma py_setitem_run (h : gmap loc obj) lv d k x :
  h !! lv = Some (ODict d) →
  py_setitem (VRef lv) k x h = (Ok (), <[lv := ODict (<[k := x]> d)]> h).
Proof. intros Hlv. unfold py_setitem. by rewrite Hlv. Qed.

Lemma py_contains_cell (h : gmap loc obj) lv d k :
  h !! lv = Some (ODict d) →
  py_contains k (VRef lv) h = (Ok (bool_decide (is_Some (d !! k))), h).
Proof.
  intros Hlv. run_prim. cbn [deref]. by rewrite Hlv.
Qed.

Lemma py_getitem_cell (h : gmap loc obj) lv d k x :
  h !! lv = Some (ODict d) → d !! k = Some x →
  py_getitem (VRef lv) k h = (Ok x, h).
Proof.
  intros Hlv Hk. run_prim. cbn [deref]. by rewrite Hlv, Hk.
Qed.

(** The schema's items are read the same in every heap that extends a
    closed heap holding the schema. *)
Lemma read_properties_extend (h0 h : gmap loc obj) schema :
  closed h0 → val_allocated h0 schema → h0 ⊆ h →
  read_properties h schema = read_properties h0 schema.
Proof.
  intros Hc Hs Hsub. unfold read_properties.
  rewrite (deref_extend h0 h) by done.
  destruct (deref h0 schema) as [[ds|]|] eqn:Hds; try reflexivity.
  destruct (ds !! "properties") as [p|] eqn:Hp; [|reflexivity].
  rewrite (deref_extend h0 h); [done..|].
  destruct schema; try discriminate. by eapply closed_dict_values.
Qed.

Lemma read_properties_allocated (h0 : gmap loc obj) schema items :
  closed h0 → val_allocated h0 schema →
  read_properties h0 schema = Ok items →
  Forall (λ item, val_allocated h0 item.2) items.
Proof.
  intros Hc Hs. unfold read_properties.
  destruct (deref h0 schema) as [[ds|]|] eqn:Hds; try discriminate.
  destruct (ds !! "properties") as [p|] eqn:Hp.
  - destruct (deref h0 p) as [[dp|]|] eqn:Hdp; try discriminate.
    intros [= <-]. destruct p; try discriminate. by eapply closed_dict_items.
  - intros [= <-]. constructor.
Qed.

(** The two statements that fetch the items, run in a heap [h]
    extending the closed heap [h0], followed by [k]. *)
Lemma fetch_items_run (h0 h : gmap loc obj) schema :
  closed h0 → val_allocated h0 schema → h0 ⊆ h →
  ∃ h', h0 ⊆ h' ∧ (∀ l, l ∈ dom h → h' !! l = h !! l) ∧
    ∀ (B : Type) (k : list (string * val) → M B),
      (py_get schema "properties" (VRef <$> alloc (ODict ∅))
         ≫= λ properties, py_items properties ≫= k) h =
      match read_properties h0 schema with
      | Ok items => k items h'
      | Raise e => (Raise e, h')
      end.
Proof.
  intros Hc Hs Hsub. unfold read_properties.
  destruct (deref h0 schema) as [[ds|]|] eqn:Hds.
  2,3: exists h; split; [done|]; split; [done|]; intros B k;
       rewrite run_bind, py_get_alloc_run, (deref_extend h0 h), Hds by done;
       reflexivity.
  set (l2 := fresh (dom h)).
  assert (Hl2 : h !! l2 = None) by apply fresh_not_allocated.
  assert (Hl2' : h0 !! l2 = None) by (by eapply lookup_weaken_None).
  exists (<[l2 := ODict ∅]> h).
  split; [by apply extend_insert_fresh|]. split.
  { intros l Hl. rewrite lookup_insert_ne; [done|].
    intros <-. apply elem_of_dom in Hl as [? ?]. congruence. }
  intros B k.
  rewrite run_bind, py_get_alloc_run, (deref_extend h0 h), Hds by done.
  fold l2. rewrite run_bind, py_items_run.
  destruct (ds !! "properties") as [p|] eqn:Hp; cbn [default]; unfold id.
  - assert (val_allocated h0 p) as Hp'.
    { destruct schema; try discriminate. by eapply closed_dict_values. }
    rewrite (deref_extend h0) by (done || by apply extend_insert_fresh).
    by destruct (deref h0 p) as [[dp|]|].
  - cbn [deref]. rewrite lookup_insert_eq. by rewrite map_to_list_empty.
Qed.

(** *** The loops *)

(** A loop whose body acts on the [dict] at [lv] as [step] does on its
    contents leaves the rest of the heap alone. *)
Lemma cell_loop_run (h0 : gmap loc obj) lv
    (body : string * val → M unit)
    (step : string * val → gmap string val → result (gmap string val)) :
  h0 !! lv = None →
  (∀ item h d, val_allocated h0 item.2 → h0 ⊆ h →
     h !! lv = Some (ODict d) →
     body item h = match step item d with
                   | Ok d' => (Ok (), <[lv := ODict d']> h)
                   | Raise e => (Raise e, h)
                   end) →
  ∀ items h d,
    Forall (λ item, val_allocated h0 item.2) items → h0 ⊆ h →
    h !! lv = Some (ODict d) →
    for_each body items h =
    ((loop_on step items d).1, <[lv := ODict (loop_on step items d).2]> h).
Proof.
  intros Hlv Hbody items. induction items as [|item items IH];
    intros h d Hall Hsub Hd.
  - cbn [for_each loop_on fst snd]. rewrite run_ret. by rewrite insert_id.
  - apply Forall_cons in Hall as [Hitem Hall].
    cbn [for_each loop_on]. rewrite run_bind, (Hbody item h d) by done.
    destruct (step item d) as [d'|e]; cbn [fst snd].
    + rewrite (IH (<[lv := ODict d']> h) d'); [|done|..].
      * by rewrite insert_insert_eq.
      * by apply extend_insert_fresh.
      * by rewrite lookup_insert_eq.
    + by rewrite insert_id.
Qed.

Lemma default_step_run (h0 h : gmap loc obj) lv item d :
  val_allocated h0 item.2 → h0 ⊆ h → h !! lv = Some (ODict d) →
  default_step (VRef lv) item h =
  match defaults_update h0 item d with
  | Ok d' => (Ok (), <[lv := ODict d']> h)
  | Raise e => (Raise e, h)
  end.
Proof.
  destruct item as [name ps]. cbn [snd]. intros Hps Hsub Hd.
  unfold default_step, defaults_update, read_default.
  destruct ps as [| | | |s|l]; try reflexivity.
  - rewrite run_bind. run_prim.
    case_bool_decide; cbn [mbind result_bind]; [reflexivity|].
    by rewrite insert_id.
  - pose proof (deref_extend h0 h (VRef l) Hsub Hps) as Hl.
    cbn [deref] in Hl. cbn [val_allocated] in Hps.
    apply elem_of_dom in Hps as [o Ho]. rewrite Ho in Hl |- *.
    rewrite run_bind. run_prim. cbn [deref]. rewrite Hl.
    destruct o as [dd|ll].
    + destruct (dd !! "default") as [v|] eqn:Hv; cbn [mbind result_bind].
      * rewrite bool_decide_eq_true_2 by eauto. rewrite Hl, Hv.
        by rewrite (py_setitem_run h lv d).
      * rewrite bool_decide_eq_false_2 by (by intros [? ?]).
        by rewrite insert_id.
    + destruct (existsb _ ll); cbn [mbind result_bind].
      * by rewrite Hl.
      * by rewrite insert_id.
Qed.

Lemma boolean_step_run (h0 h : gmap loc obj) lv item d :
  val_allocated h0 item.2 → h0 ⊆ h → h !! lv = Some (ODict d) →
  boolean_step (VRef lv) item h =
  match boolean_update h0 item d with
  | Ok d' => (Ok (), <[lv := ODict d']> h)
  | Raise e => (Raise e, h)
  end.
Proof.
  destruct item as [name ps]. cbn [snd]. intros Hps Hsub Hd.
  unfold boolean_step, boolean_update, read_type.
  rewrite run_bind, py_get_run, (deref_extend h0 h) by done.
  destruct (deref h0 ps) as [[dd|]|]; try reflexivity.
  cbn [mbind result_bind].
  destruct (val_eq_str _ "boolean").
  - rewrite run_bind, (py_contains_cell h lv d) by done.
    by rewrite (py_setitem_run h lv d).
  - rewrite run_ret. by rewrite insert_id.
Qed.

Lemma try_convert_run {A : Type} (conv : val → result A) (wrap : A → val)
    (h : gmap loc obj) lv d name raw :
  h !! lv = Some (ODict d) → d !! name = Some raw →
  try_convert conv wrap (VRef lv) name h =
  match convert conv wrap name raw d with
  | Ok d' => (Ok (), <[lv := ODict d']> h)
  | Raise e => (Raise e, h)
  end.
Proof.
  intros Hd Hraw. unfold try_convert, convert.
  rewrite run_bind, (py_getitem_cell h lv d name raw) by done.
  destruct (conv raw) as [a|e].
  - by rewrite (py_setitem_run h lv d).
  - destruct (caught_value_or_type e); [|reflexivity].
    rewrite run_ret. by rewrite insert_id.
Qed.

Lemma numeric_step_run (h0 h : gmap loc obj) lv item d :
  val_allocated h0 item.2 → h0 ⊆ h → h !! lv = Some (ODict d) →
  numeric_step (VRef lv) item h =
  match numeric_update h0 item d with
  | Ok d' => (Ok (), <[lv := ODict d']> h)
  | Raise e => (Raise e, h)
  end.
Proof.
  destruct item as [name ps]. cbn [snd]. intros Hps Hsub Hd.
  unfold numeric_step, numeric_update, read_type.
  rewrite run_bind, (py_contains_cell h lv d) by done.
  destruct (d !! name) as [raw|] eqn:Hraw.
  - rewrite bool_decide_eq_true_2 by eauto.
    rewrite run_bind, py_get_run, (deref_extend h0 h) by done.
    destruct (deref h0 ps) as [[dd|]|] eqn:Hdd; try reflexivity.
    cbn [mbind result_bind].
    destruct (val_eq_str _ "integer").
    + by apply try_convert_run.
    + rewrite run_bind, py_get_run, (deref_extend h0 h), Hdd by done.
      destruct (val_eq_str _ "number").
      * by apply try_convert_run.
      * rewrite run_ret. by rewrite insert_id.
  - rewrite bool_decide_eq_false_2 by (by intros [? ?]).
    rewrite run_ret. by rewrite insert_id.
Qed.

(** *** The operations *)

Lemma alloc_ref_run (h : gmap loc obj) o :
  (VRef <$> alloc o) h = (Ok (VRef (fresh (dom h))), <[fresh (dom h) := o]> h).
Proof. reflexivity. Qed.

(** Run in a heap that extends a closed heap holding the schema,
    [get_default_values_from_schema] returns a new [dict] holding
    [defaults_of], and changes no object of the heap it started in. *)
Lemma extract_run (h0 h : gmap loc obj) schema :
  closed h0 → val_allocated h0 schema → h0 ⊆ h →
  outcome (get_default_values_from_schema schema h) =
    returned (defaults_of h0 schema) ∧
  ∀ l, l ∈ dom h →
    (get_default_values_from_schema schema h).2 !! l = h !! l.
Proof.
  intros Hc Hs Hsub. unfold get_default_values_from_schema, defaults_of.
  rewrite run_bind, alloc_ref_run.
  set (lv := fresh (dom h)). set (h1 := <[lv := ODict ∅]> h).
  assert (Hlv : h !! lv = None) by apply fresh_not_allocated.
  assert (Hlv0 : h0 !! lv = None) by (by eapply lookup_weaken_None).
  assert (Hsub1 : h0 ⊆ h1) by (by apply extend_insert_fresh).
  assert (Hframe1 : ∀ l, l ∈ dom h → h1 !! l = h !! l ∧ l ≠ lv).
  { intros l [o Ho]%elem_of_dom.
    assert (l ≠ lv) by congruence. unfold h1. by rewrite lookup_insert_ne. }
  destruct (fetch_items_run h0 h1 schema Hc Hs Hsub1)
    as (h2 & Hsub2 & Hframe2 & Hfetch).
  rewrite Hfetch.
  assert (Hcell : h2 !! lv = Some (ODict ∅)).
  { rewrite Hframe2; [apply lookup_insert_eq|].
    apply elem_of_dom. eexists. apply lookup_insert_eq. }
  assert (Hframe : ∀ l, l ∈ dom h → h2 !! l = h !! l ∧ l ≠ lv).
  { intros l Hl. destruct (Hframe1 l Hl) as [Hl1 Hne]. split; [|done].
    rewrite Hframe2; [done|]. apply elem_of_dom. rewrite Hl1.
    by apply elem_of_dom. }
  destruct (read_properties h0 schema) as [items|e] eqn:Hitems;
    cbn [mbind result_bind].
  - rewrite run_bind.
    rewrite (cell_loop_run h0 lv _ (defaults_update h0) Hlv0
               (λ item h d, default_step_run h0 h lv item d) items h2 ∅);
      [|by eapply read_properties_allocated|done..].
    destruct (loop_on (defaults_update h0) items ∅) as [[[]|e] d];
      cbn [fst snd mbind result_bind].
    + rewrite run_ret. split.
      * unfold outcome. cbn [fst snd deref]. by rewrite lookup_insert_eq.
      * intros l Hl. destruct (Hframe l Hl) as [Hl2 Hne]. cbn [snd].
        by rewrite lookup_insert_ne.
    + split; [reflexivity|].
      intros l Hl. destruct (Hframe l Hl) as [Hl2 Hne]. cbn [snd].
      by rewrite lookup_insert_ne.
  - split; [reflexivity|]. intros l Hl. by destruct (Hframe l Hl).
Qed.

(** The same for [coerce_submission] and [config_of]. *)
Lemma coerce_run (h0 h : gmap loc obj) schema form_data :
  closed h0 → val_allocated h0 schema → h0 ⊆ h →
  outcome (coerce_submission schema form_data h) =
    returned (config_of h0 schema form_data) ∧
  ∀ l, l ∈ dom h →
    (coerce_submission schema form_data h).2 !! l = h !! l.
Proof.
  intros Hc Hs Hsub. unfold coerce_submission, config_of.
  rewrite run_bind, alloc_ref_run.
  set (lc := fresh (dom h)).
  set (h1 := <[lc := ODict (VStr <$> form_data)]> h).
  assert (Hlc : h !! lc = None) by apply fresh_not_allocated.
  assert (Hlc0 : h0 !! lc = None) by (by eapply lookup_weaken_None).
  assert (Hsub1 : h0 ⊆ h1) by (by apply extend_insert_fresh).
  assert (Hframe1 : ∀ l, l ∈ dom h → h1 !! l = h !! l ∧ l ≠ lc).
  { intros l [o Ho]%elem_of_dom.
    assert (l ≠ lc) by congruence. unfold h1. by rewrite lookup_insert_ne. }
  destruct (fetch_items_run h0 h1 schema Hc Hs Hsub1)
    as (h2 & Hsub2 & Hframe2 & Hfetch).
  rewrite Hfetch.
  assert (Hcell : h2 !! lc = Some (ODict (VStr <$> form_data))).
  { rewrite Hframe2; [apply lookup_insert_eq|].
    apply elem_of_dom. eexists. apply lookup_insert_eq. }
  assert (Hframe : ∀ l, l ∈ dom h → h2 !! l = h !! l ∧ l ≠ lc).
  { intros l Hl. destruct (Hframe1 l Hl) as [Hl1 Hne]. split; [|done].
    rewrite Hframe2; [done|]. apply elem_of_dom. rewrite Hl1.
    by apply elem_of_dom. }
  destruct (read_properties h0 schema) as [items|e] eqn:Hitems;
    cbn [mbind result_bind].
  2: { split; [reflexivity|]. intros l Hl. by destruct (Hframe l Hl). }
  assert (Hall : Forall (λ item, val_allocated h0 item.2) items)
    by (by eapply read_properties_allocated).
  rewrite run_bind.
  rewrite (cell_loop_run h0 lc _ (boolean_update h0) Hlc0
             (λ item h d, boolean_step_run h0 h lc item d) items h2
             (VStr <$> form_data)) by done.
  destruct (loop_on (boolean_update h0) items (VStr <$> form_data))
    as [[[]|e] d1]; cbn [fst snd mbind result_bind].
  2: { split; [reflexivity|].
       intros l Hl. destruct (Hframe l Hl) as [Hl2 Hne]. cbn [snd].
       by rewrite lookup_insert_ne. }
  set (h3 := <[lc := ODict d1]> h2).
  assert (Hsub3 : h0 ⊆ h3) by (by apply extend_insert_fresh).
  destruct (fetch_items_run h0 h3 schema Hc Hs Hsub3)
    as (h4 & Hsub4 & Hframe4 & Hfetch4).
  rewrite Hfetch4, Hitems.
  assert (Hcell4 : h4 !! lc = Some (ODict d1)).
  { rewrite Hframe4; [apply lookup_insert_eq|].
    apply elem_of_dom. eexists. apply lookup_insert_eq. }
  assert (Hframe' : ∀ l, l ∈ dom h → h4 !! l = h !! l ∧ l ≠ lc).
  { intros l Hl. destruct (Hframe l Hl) as [Hl2 Hne]. split; [|done].
    assert (h3 !! l = h !! l) as Hl3 by (unfold h3; by rewrite lookup_insert_ne).
    rewrite Hframe4; [done|]. apply elem_of_dom. rewrite Hl3.
    by apply elem_of_dom. }
  rewrite run_bind.
  rewrite (cell_loop_run h0 lc _ (numeric_update h0) Hlc0
             (λ item h d, numeric_step_run h0 h lc item d) items h4 d1)
    by done.
  destruct (loop_on (numeric_update h0) items d1) as [[[]|e] d2];
    cbn [fst snd mbind result_bind].
  - rewrite run_ret. split.
    + unfold outcome. cbn [fst snd deref]. by rewrite lookup_insert_eq.
    + intros l Hl. destruct (Hframe' l Hl) as [Hl4 Hne]. cbn [snd].
      by rewrite lookup_insert_ne.
  - split; [reflexivity|].
    intros l Hl. destruct (Hframe' l Hl) as [Hl4 Hne]. cbn [snd].
    by rewrite lookup_insert_ne.
Qed.

(** A heap whose old objects are unchanged extends the old heap. *)
Lemma frame_extends (h h' : gmap loc obj) :
  (∀ l, l ∈ dom h → h' !! l = h !! l) → h ⊆ h'.
Proof.
  intros Hframe. apply map_subseteq_spec. intros l o Ho.
  rewrite Hframe; [done|]. apply elem_of_dom. by exists o.
Qed.

(** C7. Both operations are pure functions of what they are given.
    Started in a heap without dangling references that holds the
    schema, each leaves every object of that heap as it was; called
    again in the heap the first call leaves it returns a [dict] with
    the same contents (or raises the same exception); and it does so in
    every heap that extends the first, whatever else that heap holds. *)
Theorem operations_are_pure (h : gmap loc obj) schema form_data :
  closed h → val_allocated h schema →
  (∀ l, l ∈ dom h →
     (get_default_values_from_schema schema h).2 !! l = h !! l) ∧
  outcome (get_default_values_from_schema schema
             (get_default_values_from_schema schema h).2) =
    outcome (get_default_values_from_schema schema h) ∧
  (∀ l, l ∈ dom h →
     (coerce_submission schema form_data h).2 !! l = h !! l) ∧
  outcome (coerce_submission schema form_data
             (coerce_submission schema form_data h).2) =
    outcome (coerce_submission schema form_data h) ∧
  (∀ h', h ⊆ h' →
     outcome (get_default_values_from_schema schema h') =
       outcome (get_default_values_from_schema schema h) ∧
     outcome (coerce_submission schema form_data h') =
       outcome (coerce_submission schema form_data h) ∧
     ∀ l, l ∈ dom h' →
       (get_default_values_from_schema schema h').2 !! l = h' !! l ∧
       (coerce_submission schema form_data h').2 !! l = h' !! l).
Proof.
  intros Hc Hs.
  destruct (extract_run h h schema Hc Hs (reflexivity h)) as [Hout Hframe].
  destruct (coerce_run h h schema form_data Hc Hs (reflexivity h))
    as [Hout' Hframe'].
  split; [done|]. split; [|split; [done|split]].
  - apply frame_extends in Hframe.
    destruct (extract_run h _ schema Hc Hs Hframe) as [-> _]. by rewrite Hout.
  - apply frame_extends in Hframe'.
    destruct (coerce_run h _ schema form_data Hc Hs Hframe') as [-> _].
    by rewrite Hout'.
  - intros h' Hsub.
    destruct (extract_run h h' schema Hc Hs Hsub) as [-> Hf].
    destruct (coerce_run h h' schema form_data Hc Hs Hsub) as [-> Hf'].
    rewrite Hout, Hout'. split; [done|]. split; [done|].
    intros l Hl. split; [by apply Hf | by apply Hf'].
Qed.

End HeapRuns.

End HeapFacts.

(** ** The heap operations compute what the operations on trees do *)

Module Refinement.

Section Lockstep.
Context `{PyBuiltins}.

(** Related mappings are traversed in the same order. *)
Lemma related_items (h : gmap Heap.loc Heap.obj) d pd :
  Heap.dict_repr h d pd →
  ∃ zs : list (string * (Heap.val * pyval)),
    map_to_list d = prod_map id fst <$> zs ∧
    map_to_list pd = prod_map id snd <$> zs ∧
    Forall (λ z, Heap.repr h z.2.1 z.2.2) zs.
Proof.
  intros Hrel. exists (map_to_list (map_zip d pd)).
  assert (Hdom : ∀ k, is_Some (d !! k) ↔ is_Some (pd !! k)).
  { intros k. destruct (Hrel k); split; intros [? ?]; by eauto. }
  split; [|split].
  - rewrite <- map_to_list_fmap. f_equal. symmetry. apply fst_map_zip.
    intros k. apply Hdom.
  - rewrite <- map_to_list_fmap. f_equal. symmetry. apply snd_map_zip.
    intros k. apply Hdom.
  - apply Forall_forall. intros [k [v p]] Hin.
    apply elem_of_map_to_list, map_lookup_zip_Some in Hin as [Hv Hp].
    cbn [fst snd] in *. specialize (Hrel k). rewrite Hv, Hp in Hrel.
    by inversion Hrel.
Qed.

(** Two loops whose steps agree on related items end the same way. *)
Lemma loops_in_lockstep (h : gmap Heap.loc Heap.obj)
    (step_h : string * Heap.val → gmap string Heap.val → result (gmap string Heap.val))
    (step_p : string * pyval → gmap string pyval → result (gmap string pyval)) :
  (∀ name v p d pd, Heap.repr h v p → Heap.dict_repr h d pd →
     Heap.result_rel (Heap.dict_repr h) (step_h (name, v) d) (step_p (name, p) pd)) →
  ∀ (zs : list (string * (Heap.val * pyval))) d pd,
    Forall (λ z, Heap.repr h z.2.1 z.2.2) zs → Heap.dict_repr h d pd →
    Heap.result_rel (Heap.dict_repr h)
      (Heap.loop_result (Heap.loop_on step_h (prod_map id fst <$> zs) d))
      (for_each step_p (prod_map id snd <$> zs) pd).
Proof.
  intros Hstep zs. induction zs as [|[name [v p]] zs IH]; intros d pd Hall Hd.
  - exact Hd.
  - apply Forall_cons in Hall as [Hvp Hall]. cbn [fst snd] in Hvp.
    cbn [fmap list_fmap prod_map fst snd id Heap.loop_on for_each].
    specialize (Hstep name v p d pd Hvp Hd).
    destruct (step_h (name, v) d) as [d'|e],
             (step_p (name, p) pd) as [pd'|e']; try done.
    by apply IH.
Qed.

Lemma eq_str_related (h : gmap Heap.loc Heap.obj) v p s :
  Heap.repr h v p → Heap.val_eq_str v s = py_eq_str p s.
Proof. by intros []. Qed.

Lemma exists_eq_str_related (h : gmap Heap.loc Heap.obj) vs ps s :
  Forall2 (Heap.repr h) vs ps →
  existsb (λ x, Heap.val_eq_str x s) vs = existsb (λ x, py_eq_str x s) ps.
Proof.
  induction 1 as [|v p vs ps Hvp _ IH]; [done|].
  cbn [existsb]. by rewrite (eq_str_related h v p), IH.
Qed.

Lemma dict_repr_insert (h : gmap Heap.loc Heap.obj) d pd k v p :
  Heap.dict_repr h d pd → Heap.repr h v p → Heap.dict_repr h (<[k := v]> d) (<[k := p]> pd).
Proof.
  intros Hd Hvp k'. destruct (decide (k' = k)) as [->|Hne].
  - rewrite !lookup_insert_eq. by constructor.
  - rewrite !lookup_insert_ne by done. apply Hd.
Qed.

Lemma dict_repr_is_Some (h : gmap Heap.loc Heap.obj) d pd k :
  Heap.dict_repr h d pd →
  bool_decide (is_Some (d !! k)) = bool_decide (is_Some (pd !! k)).
Proof.
  intros Hd. apply bool_decide_ext.
  destruct (Hd k); split; intros [? ?]; by eauto.
Qed.

Lemma defaults_step_related (h : gmap Heap.loc Heap.obj) name v p d pd :
  Heap.repr h v p → Heap.dict_repr h d pd →
  Heap.result_rel (Heap.dict_repr h)
    (Heap.defaults_update h (name, v) d) (default_step (name, p) pd).
Proof.
  intros Hvp Hd. unfold Heap.defaults_update, default_step, Heap.read_default.
  destruct Hvp as [| | | |s|l dd pdd Hl Hdd|l vs ps Hl Hvs];
    cbn [py_contains py_getitem mbind result_bind Heap.result_rel]; try done.
  - by case_bool_decide.
  - rewrite Hl. cbn [mbind result_bind].
    destruct (Hdd "default") as [x y Hxy|]; cbn [mbind result_bind].
    + rewrite bool_decide_eq_true_2 by eauto. cbn [Heap.result_rel].
      by apply dict_repr_insert.
    + by rewrite bool_decide_eq_false_2 by (by intros [? ?]).
  - rewrite Hl, (exists_eq_str_related h vs ps) by done.
    by destruct (existsb _ ps).
Qed.

(** [prop_schema.get("type")] read in the heap and on the tree. *)
Lemma read_type_related (h : gmap Heap.loc Heap.obj) v p :
  Heap.repr h v p →
  Heap.result_rel (Heap.repr h) (Heap.read_type h v) (py_get p "type" PNone).
Proof.
  intros Hvp. unfold Heap.read_type.
  destruct Hvp as [| | | |s|l dd pdd Hl Hdd|l vs ps Hl Hvs];
    cbn [Heap.deref py_get Heap.result_rel]; try done.
  - rewrite Hl. destruct (Hdd "type"); cbn [default]; [done|constructor].
  - by rewrite Hl.
Qed.

Lemma boolean_step_related (h : gmap Heap.loc Heap.obj) name v p d pd :
  Heap.repr h v p → Heap.dict_repr h d pd →
  Heap.result_rel (Heap.dict_repr h)
    (Heap.boolean_update h (name, v) d) (boolean_step (name, p) pd).
Proof.
  intros Hvp Hd. unfold Heap.boolean_update, boolean_step.
  pose proof (read_type_related h v p Hvp) as Hty.
  destruct (Heap.read_type h v) as [ty|e],
           (py_get p "type" PNone) as [pty|e'];
    cbn [mbind result_bind Heap.result_rel] in *; try done.
  rewrite (eq_str_related h ty pty) by done.
  destruct (py_eq_str pty "boolean"); cbn [Heap.result_rel]; [|done].
  rewrite (dict_repr_is_Some h d pd) by done.
  apply dict_repr_insert; [done|constructor].
Qed.

Lemma py_int_related (h : gmap Heap.loc Heap.obj) v p :
  Heap.repr h v p → Heap.py_int v = py_int p.
Proof. by intros []. Qed.

Lemma py_float_related (h : gmap Heap.loc Heap.obj) v p :
  Heap.repr h v p → Heap.py_float v = py_float p.
Proof. by intros []. Qed.

Lemma numeric_step_related (h : gmap Heap.loc Heap.obj) name v p d pd :
  Heap.repr h v p → Heap.dict_repr h d pd →
  Heap.result_rel (Heap.dict_repr h)
    (Heap.numeric_update h (name, v) d) (numeric_step (name, p) pd).
Proof.
  intros Hvp Hd. unfold Heap.numeric_update, numeric_step, Heap.convert.
  destruct (Hd name) as [raw praw Hraw|]; [|done].
  pose proof (read_type_related h v p Hvp) as Hty.
  destruct (Heap.read_type h v) as [ty|e],
           (py_get p "type" PNone) as [pty|e'];
    cbn [mbind result_bind Heap.result_rel] in *; try done.
  rewrite !(eq_str_related h ty pty) by done.
  destruct (py_eq_str pty "integer").
  - rewrite (py_int_related h raw praw) by done.
    destruct (py_int praw) as [z|e]; cbn [Heap.result_rel].
    + apply dict_repr_insert; [done|constructor].
    + by destruct (caught_value_or_type e).
  - destruct (py_eq_str pty "number"); [|done].
    rewrite (py_float_related h raw praw) by done.
    destruct (py_float praw) as [f|e]; cbn [Heap.result_rel].
    + apply dict_repr_insert; [done|constructor].
    + by destruct (caught_value_or_type e).
Qed.

(** The items of [properties], fetched in the heap and on the tree. *)
Lemma read_properties_related (h : gmap Heap.loc Heap.obj) schema tree :
  Heap.repr h schema tree →
  Heap.result_rel
    (λ items pitems, ∃ zs : list (string * (Heap.val * pyval)),
       items = prod_map id fst <$> zs ∧ pitems = prod_map id snd <$> zs ∧
       Forall (λ z, Heap.repr h z.2.1 z.2.2) zs)
    (Heap.read_properties h schema)
    (py_get tree "properties" (PDict ∅) ≫= py_items).
Proof.
  intros Hs. unfold Heap.read_properties.
  destruct Hs as [| | | |s|l ds pds Hl Hds|l vs ps Hl Hvs];
    cbn [Heap.deref py_get mbind result_bind Heap.result_rel]; try done.
  - rewrite Hl. destruct (Hds "properties") as [p pp Hp|]; cbn [default].
    + unfold id.
      destruct Hp as [| | | |s|lp dp pdp Hlp Hdp|lp vs ps Hlp Hvs];
        cbn [Heap.deref py_items Heap.result_rel]; try done.
      * rewrite Hlp. by apply related_items.
      * by rewrite Hlp.
    + cbn [py_items Heap.result_rel]. exists [].
      rewrite map_to_list_empty. by repeat split.
  - by rewrite Hl.
Qed.

(** The defaults extracted in the heap are those extracted from the
    tree the schema denotes. *)
Lemma defaults_of_refines (h : gmap Heap.loc Heap.obj) schema tree :
  Heap.repr h schema tree →
  Heap.result_rel (Heap.dict_repr h)
    (Heap.defaults_of h schema) (get_default_values_from_schema tree).
Proof.
  intros Hs. unfold Heap.defaults_of, get_default_values_from_schema.
  pose proof (read_properties_related h schema tree Hs) as Hitems.
  destruct (Heap.read_properties h schema) as [items|e],
           (py_get tree "properties" (PDict ∅)) as [props|e'];
    cbn [mbind result_bind Heap.result_rel] in Hitems |- *; try done.
  - destruct (py_items props) as [pitems|e'];
      cbn [mbind result_bind Heap.result_rel] in Hitems |- *; [|done].
    destruct Hitems as (zs & -> & -> & Hzs).
    pose proof (loops_in_lockstep h (Heap.defaults_update h) default_step
                  (λ name v p d pd, defaults_step_related h name v p d pd)
                  zs ∅ ∅ Hzs) as Hloop.
    unfold Heap.loop_result in Hloop.
    destruct (Heap.loop_on _ _ _) as [[[]|e] d]; cbn [fst snd] in Hloop |- *;
      cbn [mbind result_bind]; apply Hloop; intros k;
      rewrite !lookup_empty; constructor.
  - by destruct (py_items props).
Qed.

(** The configuration coerced in the heap is the one coerced from the
    tree the schema denotes. *)
Lemma config_of_refines (h : gmap Heap.loc Heap.obj) schema tree form_data :
  Heap.repr h schema tree →
  Heap.result_rel (Heap.dict_repr h)
    (Heap.config_of h schema form_data) (coerce_submission tree form_data).
Proof.
  intros Hs. unfold Heap.config_of, coerce_submission.
  pose proof (read_properties_related h schema tree Hs) as Hitems.
  destruct (Heap.read_properties h schema) as [items|e],
           (py_get tree "properties" (PDict ∅)) as [props|e'];
    cbn [mbind result_bind Heap.result_rel] in Hitems |- *; try done.
  2: by destruct (py_items props).
  destruct (py_items props) as [pitems|e'];
    cbn [mbind result_bind Heap.result_rel] in Hitems |- *; [|done].
  destruct Hitems as (zs & -> & -> & Hzs).
  assert (Hinit : Heap.dict_repr h (Heap.VStr <$> form_data) (PStr <$> form_data)).
  { intros k. rewrite !lookup_fmap.
    destruct (form_data !! k); constructor. constructor. }
  pose proof (loops_in_lockstep h (Heap.boolean_update h) boolean_step
                (λ name v p d pd, boolean_step_related h name v p d pd)
                zs _ _ Hzs Hinit) as Hloop1.
  unfold Heap.loop_result in Hloop1.
  destruct (Heap.loop_on (Heap.boolean_update h) _ _) as [[[]|e] d1],
           (for_each boolean_step _ _) as [pd1|e'];
    cbn [fst snd] in Hloop1; cbn [mbind result_bind Heap.result_rel];
    try done.
  pose proof (loops_in_lockstep h (Heap.numeric_update h) numeric_step
                (λ name v p d pd, numeric_step_related h name v p d pd)
                zs d1 pd1 Hzs Hloop1) as Hloop2.
  unfold Heap.loop_result in Hloop2.
  destruct (Heap.loop_on (Heap.numeric_update h) _ _) as [[[]|e] d2];
    cbn [fst snd] in Hloop2; cbn [mbind result_bind]; exact Hloop2.
Qed.

(** Run in a closed heap, each heap operation ends as the operation on
    the tree its schema denotes, and the [dict] it returns denotes the
    mapping that one returns. *)
Lemma heap_operations_refine (h : gmap Heap.loc Heap.obj) schema tree form_data :
  Heap.closed h → Heap.val_allocated h schema → Heap.repr h schema tree →
  Heap.result_rel (λ out pd, ∃ d, out = Some d ∧ Heap.dict_repr h d pd)
    (Heap.outcome (Heap.get_default_values_from_schema schema h))
    (get_default_values_from_schema tree) ∧
  Heap.result_rel (λ out pd, ∃ d, out = Some d ∧ Heap.dict_repr h d pd)
    (Heap.outcome (Heap.coerce_submission schema form_data h))
    (coerce_submission tree form_data).
Proof.
  intros Hc Hs Hrepr.
  destruct (HeapFacts.extract_run h h schema Hc Hs (reflexivity h)) as [-> _].
  destruct (HeapFacts.coerce_run h h schema form_data Hc Hs (reflexivity h))
    as [-> _].
  pose proof (defaults_of_refines h schema tree Hrepr) as Hd.
  pose proof (config_of_refines h schema tree form_data Hrepr) as Hc'.
  split.
  - destruct (Heap.defaults_of h schema) as [d|e],
             (get_default_values_from_schema tree) as [pd|e'];
      cbn [Heap.returned Heap.result_rel] in *; try done. by exists d.
  - destruct (Heap.config_of h schema form_data) as [d|e],
             (coerce_submission tree form_data) as [pd|e'];
      cbn [Heap.returned Heap.result_rel] in *; try done. by exists d.
Qed.

End Lockstep.

End Refinement.

(** ** What the returned objects share with the schema *)

Module HeapExtras.
Import Heap HeapFacts.

Section Sharing.
Context `{PyBuiltins}.

Lemma extract_returns_values (h h' : gmap loc obj) schema v :
  get_default_values_from_schema schema h = (Ok v, h') →
  v = VRef (fresh (dom h)).
Proof.
  unfold get_default_values_from_schema.
  rewrite run_bind, alloc_ref_run, run_bind.
  destruct (py_get schema _ _ _) as [[p|e] h2]; [|done].
  rewrite run_bind. destruct (py_items p h2) as [[items|e] h3]; [|done].
  rewrite run_bind.
  destruct (for_each _ items h3) as [[[]|e] h4]; [|done].
  rewrite run_ret. by intros [= <- _].
Qed.

Lemma coerce_returns_config (h h' : gmap loc obj) schema form_data v :
  coerce_submission schema form_data h = (Ok v, h') →
  v = VRef (fresh (dom h)).
Proof.
  unfold coerce_submission.
  rewrite run_bind, alloc_ref_run, run_bind.
  destruct (py_get schema _ _ _) as [[p|e] h2]; [|done].
  rewrite run_bind. destruct (py_items p h2) as [[items|e] h3]; [|done].
  rewrite run_bind.
  destruct (for_each _ items h3) as [[[]|e] h4]; [|done].
  rewrite run_bind.
  destruct (py_get schema _ _ h4) as [[p'|e] h5]; [|done].
  rewrite run_bind. destruct (py_items p' h5) as [[items'|e] h6]; [|done].
  rewrite run_bind.
  destruct (for_each _ items' h6) as [[[]|e] h7]; [|done].
  rewrite run_ret. by intros [= <- _].
Qed.

Lemma outcome_dict (h' : gmap loc obj) v r d :
  outcome (Ok v, h') = returned r → r = Ok d →
  deref h' v = Some (ODict d).
Proof.
  intros Hout ->. unfold outcome in Hout. cbn [fst snd returned] in Hout.
  destruct (deref h' v) as [[d'|]|]; congruence.
Qed.

(** X14. Each operation that returns, returns a [dict] it has created:
    the reference it returns was not allocated when it was called, so
    the result is no object of the schema and two calls never return the
    same object. *)
Theorem operations_return_new_dicts (h : gmap loc obj) schema form_data :
  closed h → val_allocated h schema →
  (∀ v h', get_default_values_from_schema schema h = (Ok v, h') →
     ∃ l d, v = VRef l ∧ h !! l = None ∧ h' !! l = Some (ODict d)) ∧
  (∀ v h', coerce_submission schema form_data h = (Ok v, h') →
     ∃ l d, v = VRef l ∧ h !! l = None ∧ h' !! l = Some (ODict d)).
Proof.
  intros Hc Hs. split; intros v h' Hrun.
  - destruct (extract_run h h schema Hc Hs (reflexivity h)) as [Hout _].
    rewrite Hrun in Hout.
    destruct (defaults_of h schema) as [d|e] eqn:Hd; [|done].
    pose proof (outcome_dict h' v _ d Hout eq_refl) as Hv.
    apply extract_returns_values in Hrun as ->.
    exists (fresh (dom h)), d. split; [done|].
    split; [apply fresh_not_allocated | exact Hv].
  - destruct (coerce_run h h schema form_data Hc Hs (reflexivity h))
      as [Hout _].
    rewrite Hrun in Hout.
    destruct (config_of h schema form_data) as [d|e] eqn:Hd; [|done].
    pose proof (outcome_dict h' v _ d Hout eq_refl) as Hv.
    apply coerce_returns_config in Hrun as ->.
    exists (fresh (dom h)), d. split; [done|].
    split; [apply fresh_not_allocated | exact Hv].
Qed.

Lemma loop_on_other {A : Type} (key : A → string)
    (step : A → gmap string val → result (gmap string val)) :
  (∀ item d d' k, step item d = Ok d' → k ≠ key item → d' !! k = d !! k) →
  ∀ items d k, k ∉ key <$> items →
    (loop_on step items d).2 !! k = d !! k.
Proof.
  intros Hstep items. induction items as [|item items IH]; intros d k Hk.
  - done.
  - cbn [loop_on]. apply not_elem_of_cons in Hk as [Hne Hk].
    destruct (step item d) as [d'|e] eqn:Hd; [|done].
    rewrite (IH d' k Hk). by apply (Hstep item d d' k).
Qed.

Lemma defaults_update_other (h : gmap loc obj) item d d' k :
  defaults_update h item d = Ok d' → k ≠ item.1 → d' !! k = d !! k.
Proof.
  destruct item as [name ps]. unfold defaults_update. cbn [fst].
  destruct (read_default h ps) as [[x|]|]; cbn [mbind result_bind];
    intros [= <-] Hne; [by rewrite lookup_insert_ne|done].
Qed.

Lemma defaults_loop_shares (h : gmap loc obj) items d d' name ps x :
  NoDup items.*1 →
  loop_on (defaults_update h) items d = (Ok (), d') →
  (name, ps) ∈ items → read_default h ps = Ok (Some x) →
  d' !! name = Some x.
Proof.
  revert d. induction items as [|[n p] items IH]; intros d Hnd Hrun Hin Hx.
  - by apply elem_of_nil in Hin.
  - apply NoDup_cons in Hnd as [Hfresh Hnd]. cbn [loop_on] in Hrun.
    destruct (defaults_update h (n, p) d) as [d1|e] eqn:Hd1; [|done].
    apply elem_of_cons in Hin as [[= -> ->]|Hin].
    + pose proof (loop_on_other fst (defaults_update h)
                    (defaults_update_other h) items d1 n Hfresh) as Hkeep.
      rewrite Hrun in Hkeep. cbn [snd] in Hkeep. rewrite Hkeep.
      unfold defaults_update in Hd1. rewrite Hx in Hd1.
      injection Hd1 as <-. apply lookup_insert_eq.
    + by apply (IH d1).
Qed.

(** X15. The extracted defaults are shared with the schema, not
    copied: the entry returned for a property is the very value stored
    under [default] in its schema, so a default that is a [list] or a
    [dict] is the same object in the result and in the schema. *)
Theorem defaults_are_shared_with_the_schema (h h' : gmap loc obj)
    ls ds lp dp name lps dps x v :
  closed h →
  h !! ls = Some (ODict ds) →
  ds !! "properties" = Some (VRef lp) →
  h !! lp = Some (ODict dp) →
  dp !! name = Some (VRef lps) →
  h !! lps = Some (ODict dps) →
  dps !! "default" = Some x →
  get_default_values_from_schema (VRef ls) h = (Ok v, h') →
  ∃ d, deref h' v = Some (ODict d) ∧ d !! name = Some x.
Proof.
  intros Hc Hls Hprops Hlp Hname Hlps Hx Hrun.
  assert (Hs : val_allocated h (VRef ls)) by (apply elem_of_dom; eauto).
  destruct (extract_run h h (VRef ls) Hc Hs (reflexivity h)) as [Hout _].
  rewrite Hrun in Hout.
  destruct (defaults_of h (VRef ls)) as [d|e] eqn:Hd; [|done].
  exists d. split; [by eapply outcome_dict|].
  unfold defaults_of, read_properties in Hd. cbn [deref] in Hd.
  rewrite Hls, Hprops in Hd. cbn [deref] in Hd. rewrite Hlp in Hd.
  cbn [mbind result_bind] in Hd.
  destruct (loop_on (defaults_update h) (map_to_list dp) ∅)
    as [[[]|e] d1] eqn:Hloop; cbn [mbind result_bind] in Hd; [|done].
  injection Hd as <-.
  apply (defaults_loop_shares h (map_to_list dp) ∅ d1 name (VRef lps) x).
  - apply NoDup_fst_map_to_list.
  - done.
  - by apply elem_of_map_to_list.
  - unfold read_default. by rewrite Hlps, Hx.
Qed.

Lemma loop_on_invariant {A : Type} (P : gmap string val → Prop)
    (step : A → gmap string val → result (gmap string val)) :
  (∀ item d d', P d → step item d = Ok d' → P d') →
  ∀ items d, P d → P (loop_on step items d).2.
Proof.
  intros Hstep items. induction items as [|item items IH]; intros d Hd.
  - done.
  - cbn [loop_on]. destruct (step item d) as [d'|e] eqn:Hd'; [|done].
    apply IH. by apply (Hstep item d).
Qed.

Lemma boolean_update_immediate (h : gmap loc obj) item d d' :
  all_immediate d → boolean_update h item d = Ok d' → all_immediate d'.
Proof.
  destruct item as [name ps]. unfold boolean_update. intros Hd.
  destruct (read_type h ps) as [ty|]; cbn [mbind result_bind]; [|done].
  intros [= <-]. destruct (val_eq_str ty "boolean"); [|done].
  by apply map_Forall_insert_2.
Qed.

Lemma numeric_update_immediate (h : gmap loc obj) item d d' :
  all_immediate d → numeric_update h item d = Ok d' → all_immediate d'.
Proof.
  destruct item as [name ps]. unfold numeric_update, convert. intros Hd.
  destruct (d !! name) as [raw|]; [|by intros [= <-]].
  destruct (read_type h ps) as [ty|]; cbn [mbind result_bind]; [|done].
  destruct (val_eq_str ty "integer").
  - destruct (py_int raw) as [z|e].
    + intros [= <-]. by apply map_Forall_insert_2.
    + destruct (caught_value_or_type e); [by intros [= <-]|done].
  - destruct (val_eq_str ty "number"); [|by intros [= <-]].
    destruct (py_float raw) as [f|e].
    + intros [= <-]. by apply map_Forall_insert_2.
    + destruct (caught_value_or_type e); [by intros [= <-]|done].
Qed.

(** X16. The coerced configuration shares nothing with the schema:
    every value of the [dict] returned is a string, a boolean, an
    integer or a float held directly, never a reference to an object and
    never [None]. *)
Theorem configuration_holds_no_reference (h h' : gmap loc obj)
    schema form_data v :
  closed h → val_allocated h schema →
  coerce_submission schema form_data h = (Ok v, h') →
  ∃ d, deref h' v = Some (ODict d) ∧
       ∀ k x, d !! k = Some x → immediate x = true.
Proof.
  intros Hc Hs Hrun.
  destruct (coerce_run h h schema form_data Hc Hs (reflexivity h))
    as [Hout _].
  rewrite Hrun in Hout.
  destruct (config_of h schema form_data) as [d|e] eqn:Hd; [|done].
  exists d. split; [by eapply outcome_dict|].
  unfold config_of in Hd.
  destruct (read_properties h schema) as [items|]; cbn [mbind result_bind] in Hd;
    [|done].
  pose proof (loop_on_invariant all_immediate (boolean_update h)
                (boolean_update_immediate h) items (VStr <$> form_data)) as H1.
  destruct (loop_on (boolean_update h) items (VStr <$> form_data))
    as [[[]|e] d1]; cbn [mbind result_bind fst snd] in Hd, H1; [|done].
  pose proof (loop_on_invariant all_immediate (numeric_update h)
                (numeric_update_immediate h) items d1) as H2.
  destruct (loop_on (numeric_update h) items d1) as [[[]|e] d2];
    cbn [mbind result_bind fst snd] in Hd, H2; [|done].
  injection Hd as <-. apply H2, H1.
  intros k x. rewrite lookup_fmap. by destruct (form_data !! k); intros [= <-].
Qed.

End Sharing.

End HeapExtras.

(** ** The theorems at concrete inputs *)

Module Witnesses.
Import Examples Runs.

Lemma coerce_keys_raw_and_boolean_witness :
  ∃ config, coerce_submission demo_schema demo_form = Ok config ∧
    dom config = dom demo_form ∪ typed_properties "boolean" demo_properties.
Proof.
  destruct (coerce_keys_raw_and_boolean demo_schema demo_properties demo_form
              demo_schema_properties) as [Hkeys Htotal].
  destruct (Htotal demo_properties_are_mappings) as [config Hrun].
  exists config. split; [exact Hrun | exact (Hkeys config Hrun)].
Defined.

Lemma boolean_true_iff_submitted_witness :
  ∃ config, coerce_submission demo_schema ∅ = Ok config ∧
    config !! "enabled" = Some (PBool (bool_decide ("enabled" ∈ dom (∅ : gmap string string)))).
Proof.
  destruct (boolean_true_iff_submitted demo_schema demo_properties ∅
              "enabled" enabled_schema demo_schema_properties)
    as [Hvalue Htotal]; [vm_compute; reflexivity | reflexivity |].
  destruct (Htotal demo_properties_are_mappings) as [config Hrun].
  exists config. split; [exact Hrun | exact (Hvalue config Hrun)].
Defined.

Lemma numeric_parse_or_raw_witness :
  ∃ config, coerce_submission demo_schema demo_form = Ok config ∧
    config !! "max_tokens" = Some (PInt 42).
Proof.
  destruct (numeric_parse_or_raw demo_schema demo_properties demo_form
              "max_tokens" max_tokens_schema "42" demo_schema_properties)
    as [Hvalue Htotal]; [vm_compute; reflexivity | vm_compute; reflexivity |].
  destruct (Htotal demo_properties_are_mappings) as [config Hrun].
  exists config. split; [exact Hrun|].
  exact (proj1 (Hvalue config Hrun) eq_refl).
Defined.

Lemma coerce_keys_within_schema_witness :
  ∃ config, coerce_submission demo_schema {["name" := "x"]} = Ok config ∧
    dom config = typed_properties "boolean" demo_properties ∪
                 (dom ({["name" := "x"]} : gmap string string) ∩ dom demo_properties).
Proof.
  destruct (coerce_keys_within_schema demo_schema demo_properties
              {["name" := "x"]} demo_schema_properties) as [Hkeys Htotal].
  destruct (Htotal demo_properties_are_mappings) as [config Hrun].
  exists config. split; [exact Hrun|].
  apply (proj2 (Hkeys config Hrun)).
  apply (bool_decide_unpack _). vm_compute. exact I.
Defined.

Lemma unknown_fields_pass_through_witness :
  ∃ config, coerce_submission demo_schema demo_form = Ok config ∧
    config !! "extra" = Some (PStr "1").
Proof.
  destruct (unknown_fields_pass_through demo_schema demo_properties demo_form
              "extra" "1" demo_schema_properties)
    as [Hvalue Htotal]; [vm_compute; reflexivity | vm_compute; reflexivity |].
  destruct (Htotal demo_properties_are_mappings) as [config Hrun].
  exists config. split; [exact Hrun | exact (Hvalue config Hrun)].
Defined.

Lemma extract_defaults_exact_witness :
  ∃ values, get_default_values_from_schema demo_schema = Ok values ∧
    values !! "name" = Some (PStr "hi") ∧ values !! "temperature" = None ∧
    dom values ⊆ dom demo_properties.
Proof.
  destruct (extract_defaults_exact demo_schema demo_properties
              demo_schema_properties) as (Hexact & Htotal & _).
  destruct (Htotal demo_properties_are_mappings) as [values Hrun].
  destruct (Hexact values Hrun) as [Hiff Hdom].
  exists values. split; [exact Hrun|]. split; [|split; [|exact Hdom]].
  - apply Hiff. exists (obj [("type", PStr "string"); ("default", PStr "hi")]).
    split; [vm_compute; reflexivity | reflexivity].
  - destruct (values !! "temperature") as [v|] eqn:Hv; [|reflexivity].
    apply Hiff in Hv as (ps & Hps & Hdefault).
    vm_compute in Hps. injection Hps as <-. discriminate Hdefault.
Defined.

(** The string default of the integer-typed [count] is returned as it
    is. *)
Lemma default_copied_whatever_type_witness :
  has_type "integer" count_schema = true ∧
  ∃ values, get_default_values_from_schema demo_schema = Ok values ∧
    values !! "count" = Some (PStr "many").
Proof.
  split; [reflexivity|].
  destruct (default_copied_whatever_type demo_schema demo_properties
              "count" count_schema (PStr "many") demo_schema_properties)
    as [Hvalue Htotal]; [vm_compute; reflexivity | reflexivity |].
  destruct (Htotal demo_properties_are_mappings) as [values Hrun].
  exists values. split; [exact Hrun | exact (Hvalue values Hrun)].
Defined.


Lemma failures_come_from_schema_shape_witness :
  get_default_values_from_schema string_properties_schema = Raise AttributeError ∧
  coerce_submission string_properties_schema demo_form = Raise AttributeError.
Proof.
  exact (proj1 (failures_come_from_schema_shape string_properties_schema
                  demo_form) eq_refl).
Defined.


Lemma load_fails_without_readable_file_witness :
  load_test_schema missing_world = Raise FileNotFoundError.
Proof.
  exact (proj1 (load_fails_without_readable_file missing_world "schema.json"
                  eq_refl eq_refl) eq_refl).
Defined.

End Witnesses.

Module HeapWitnesses.
Import Heap HeapFacts Examples.

Example heap_defaults_demo :
  outcome (get_default_values_from_schema (VRef 1%positive) demo_heap) =
  Ok (Some (list_to_map [("x", VStr "hi"); ("n", VRef 6%positive)])).
Proof. vm_compute. reflexivity. Qed.

Example heap_coerce_demo :
  outcome (coerce_submission (VRef 1%positive) demo_submission demo_heap) =
  Ok (Some (list_to_map [("b", VBool false); ("n", VInt 12);
                         ("x", VStr "y"); ("z", VStr "1")])).
Proof. vm_compute. reflexivity. Qed.

Lemma demo_heap_closed : closed demo_heap.
Proof. apply (bool_decide_unpack _). vm_compute. exact I. Qed.

Lemma operations_are_pure_witness :
  outcome (get_default_values_from_schema (VRef 1%positive)
             (get_default_values_from_schema (VRef 1%positive) demo_heap).2) =
  outcome (get_default_values_from_schema (VRef 1%positive) demo_heap) ∧
  (get_default_values_from_schema (VRef 1%positive) demo_heap).2 !! 1%positive =
  demo_heap !! 1%positive.
Proof.
  destruct (operations_are_pure demo_heap (VRef 1%positive) demo_submission
              demo_heap_closed) as (Hframe & Hagain & _).
  - apply (bool_decide_unpack _). vm_compute. exact I.
  - split; [exact Hagain|]. apply Hframe.
    apply (bool_decide_unpack _). vm_compute. exact I.
Defined.

End HeapWitnesses.

(** ** Where the stated properties fail *)

Module Counterexamples.
Import Examples.

(** C4 as stated: a submitted key that is not a property name is in the
    result, so the key set is not the stated union. *)
Lemma unknown_key_kept :
  ∃ config, coerce_submission demo_schema {["extra" := "1"]} = Ok config ∧
    "extra" ∈ dom config ∧
    dom config ≠ typed_properties "boolean" demo_properties ∪
                 (dom ({["extra" := "1"]} : gmap string string) ∩ dom demo_properties).
Proof.
  exists (list_to_map [("enabled", PBool false); ("extra", PStr "1")]).
  split; [vm_compute; reflexivity|]. split; [by apply elem_of_dom|].
  intros Heq.
  assert ("extra" ∈ dom (list_to_map (M := gmap string pyval)
            [("enabled", PBool false); ("extra", PStr "1")])) as Hin
    by (by apply elem_of_dom).
  rewrite Heq in Hin. apply elem_of_union in Hin as [Hin|Hin].
  - apply typed_properties_subseteq, elem_of_dom in Hin as [v Hv].
    vm_compute in Hv. discriminate.
  - apply elem_of_intersection in Hin as [_ [v Hv]%elem_of_dom].
    vm_compute in Hv. discriminate.
Qed.

(** C5 as stated: with [properties] a string both operations raise, and
    what they raise is not a [SchemaFormatError]. *)
Lemma string_properties_not_format_error :
  schema_properties string_properties_schema = None ∧
  ¬ (∃ e, get_default_values_from_schema string_properties_schema = Raise e ∧
          exn_name e = "SchemaFormatError") ∧
  ¬ (∃ e, coerce_submission string_properties_schema ∅ = Raise e ∧
          exn_name e = "SchemaFormatError").
Proof.
  split; [reflexivity|]. split; intros (e & Hrun & Hname);
    vm_compute in Hrun; injection Hrun as <-; discriminate.
Qed.

(** C8 as stated: a path that resolves to a directory is not a readable
    file, and the loader does not raise [FileNotFoundError] for it. *)
Lemma directory_path_not_missing :
  SCHEMA_PATH directory_world = Some "schemas" ∧
  readable_file directory_world "schemas" = false ∧
  load_test_schema directory_world = Raise IsADirectoryError ∧
  load_test_schema directory_world ≠ Raise FileNotFoundError.
Proof.
  split; [reflexivity|]. split; [reflexivity|].
  split; [reflexivity|discriminate].
Qed.

End Counterexamples.

(** ** The further properties at concrete inputs *)

Module ExtraWitnesses.
Import Examples Runs.

Lemma untyped_field_keeps_raw_string_witness :
  ∃ config, coerce_submission demo_schema demo_form = Ok config ∧
    config !! "name" = Some (PStr "x").
Proof.
  destruct (untyped_field_keeps_raw_string demo_schema demo_properties
              demo_form "name" name_schema "x" demo_schema_properties)
    as [Hvalue Htotal];
    [vm_compute; reflexivity | reflexivity | reflexivity
    | vm_compute; reflexivity |].
  destruct (Htotal demo_properties_are_mappings) as [config Hrun].
  exists config. split; [exact Hrun | exact (Hvalue config Hrun)].
Defined.

Lemma absent_field_is_not_defaulted_witness :
  declared_default max_tokens_schema = Some (PInt 256) ∧
  ∃ config, coerce_submission demo_schema ∅ = Ok config ∧
    config !! "max_tokens" = None.
Proof.
  split; [reflexivity|].
  destruct (absent_field_is_not_defaulted demo_schema demo_properties ∅
              "max_tokens" max_tokens_schema demo_schema_properties)
    as [Hvalue Htotal];
    [vm_compute; reflexivity | reflexivity | reflexivity |].
  destruct (Htotal demo_properties_are_mappings) as [config Hrun].
  exists config. split; [exact Hrun | exact (Hvalue config Hrun)].
Defined.

Lemma coerced_values_are_typed_scalars_witness :
  "max_tokens" ∈ typed_properties "integer" demo_properties ∧
  ∃ s, demo_form !! "max_tokens" = Some s ∧ int_of_str s = Some 42.
Proof.
  destruct (coerced_values_are_typed_scalars demo_schema demo_properties
              demo_form demo_schema_properties) as [Htyped _].
  apply (Htyped _ "max_tokens" (PInt 42) coerce_demo).
  vm_compute. reflexivity.
Defined.

Lemma coerced_entry_is_local_witness :
  ∃ config config',
    coerce_submission demo_schema demo_form = Ok config ∧
    coerce_submission demo_schema {["max_tokens" := "42"]} = Ok config' ∧
    config !! "max_tokens" = config' !! "max_tokens".
Proof.
  destruct (coerced_entry_is_local demo_schema demo_properties demo_form
              {["max_tokens" := "42"]} "max_tokens" demo_schema_properties)
    as [Hlocal Htotal]; [vm_compute; reflexivity|].
  destruct (Htotal demo_properties_are_mappings)
    as (config & config' & Hrun & Hrun').
  exists config, config'.
  split; [exact Hrun|]. split; [exact Hrun'|].
  exact (Hlocal config config' Hrun Hrun').
Defined.

Lemma bare_and_decorated_same_kind k :
  option_Forall2 same_kind (bare_properties !! k) (decorated_properties !! k).
Proof.
  unfold bare_properties, decorated_properties.
  destruct (decide (k = "n")) as [->|Hne].
  - rewrite !lookup_singleton_eq. constructor. by repeat split.
  - rewrite !lookup_singleton_ne by done. constructor.
Qed.

Lemma coercion_reads_types_only_witness :
  ∃ config,
    coerce_submission bare_schema {["n" := "7"]} = Ok config ∧
    coerce_submission decorated_schema {["n" := "7"]} = Ok config.
Proof.
  destruct (coercion_reads_types_only bare_schema decorated_schema
              bare_properties decorated_properties {["n" := "7"]}
              eq_refl eq_refl bare_and_decorated_same_kind)
    as [_ Htotal].
  apply Htotal; apply all_dicts_map_to_list; vm_compute; reflexivity.
Defined.

Lemma extraction_fails_on_searched_schemas_witness :
  is_ok (get_default_values_from_schema demo_schema) = true.
Proof.
  apply (proj1 (extraction_fails_on_searched_schemas demo_schema
                  demo_properties demo_schema_properties)).
  apply (bool_decide_unpack _). vm_compute. exact I.
Defined.


Lemma empty_schema_is_flat : flat_schema (PDict ∅).
Proof. exists ∅. split; [reflexivity|]. apply map_Forall_empty. Qed.

Lemma submit_returns_iff_flat_schema_file_witness :
  is_ok (submit empty_schema_world demo_form) = true.
Proof.
  apply (submit_returns_iff_flat_schema_file empty_schema_world demo_form).
  exists "schema.json", "{}", (PDict ∅). split; [reflexivity|].
  split; [vm_compute; reflexivity|].
  split; [vm_compute; reflexivity | exact empty_schema_is_flat].
Defined.

Lemma submit_failure_ignores_the_form_witness :
  submit missing_world demo_form = Raise FileNotFoundError ∧
  submit missing_world ∅ = Raise FileNotFoundError.
Proof.
  split; [reflexivity|].
  exact (proj1 (submit_failure_ignores_the_form missing_world demo_form
                  FileNotFoundError eq_refl) ∅).
Defined.

Lemma index_passes_the_declared_defaults_witness :
  load_test_schema empty_schema_world = Ok (PDict ∅).
Proof.
  apply (index_passes_the_declared_defaults empty_schema_world (PDict ∅) ∅).
  vm_compute. reflexivity.
Defined.



Lemma served_handlers_fail_only_on_properties_witness :
  ∃ doc, load_test_schema empty_schema_world = Ok (PDict doc).
Proof.
  apply (served_handlers_fail_only_on_properties empty_schema_world
           schema_json_args empty_schema_world (PStr "Unknown")
           (PStr "No description") "0.0.0.0" 5001).
  vm_compute. reflexivity.
Defined.

End ExtraWitnesses.

(** ** The sharing properties at concrete inputs *)

Module HeapExtraWitnesses.
Import Heap HeapFacts HeapExtras Examples.

Lemma demo_heap_schema_allocated : val_allocated demo_heap (VRef 1%positive).
Proof. apply (bool_decide_unpack _). vm_compute. exact I. Qed.

Lemma operations_return_new_dicts_witness :
  ∃ l d,
    (get_default_values_from_schema (VRef 1%positive) demo_heap).1
      = Ok (VRef l) ∧
    demo_heap !! l = None ∧
    (get_default_values_from_schema (VRef 1%positive) demo_heap).2 !! l
      = Some (ODict d).
Proof.
  destruct (get_default_values_from_schema (VRef 1%positive) demo_heap)
    as [r h'] eqn:Hrun.
  assert (r = Ok (VRef 7%positive)) as ->.
  { apply (f_equal fst) in Hrun. vm_compute in Hrun. by symmetry. }
  destruct (proj1 (operations_return_new_dicts demo_heap (VRef 1%positive)
                     demo_submission HeapWitnesses.demo_heap_closed
                     demo_heap_schema_allocated) _ _ Hrun)
    as (l & d & Hv & Hnew & Hd).
  exists l, d. cbn [fst snd]. split; [by rewrite Hv|]. by split.
Defined.

Lemma defaults_are_shared_with_the_schema_witness :
  ∃ d, outcome (get_default_values_from_schema (VRef 1%positive) demo_heap)
         = Ok (Some d) ∧
       d !! "n" = Some (VRef 6%positive).
Proof.
  destruct (get_default_values_from_schema (VRef 1%positive) demo_heap)
    as [r h'] eqn:Hrun.
  assert (r = Ok (VRef 7%positive)) as ->.
  { apply (f_equal fst) in Hrun. vm_compute in Hrun. by symmetry. }
  destruct (defaults_are_shared_with_the_schema demo_heap h'
              1%positive (list_to_map [("properties", VRef 2%positive)])
              2%positive (list_to_map [("x", VRef 3%positive);
                                       ("n", VRef 4%positive);
                                       ("b", VRef 5%positive)])
              "n" 4%positive
              (list_to_map [("type", VStr "integer");
                            ("default", VRef 6%positive)])
              (VRef 6%positive) (VRef 7%positive)
              HeapWitnesses.demo_heap_closed)
    as (d & Hd & Hn); try (vm_compute; reflexivity); [exact Hrun|].
  exists d. split; [|exact Hn].
  unfold outcome. cbn [fst snd]. by rewrite Hd.
Defined.

Lemma configuration_holds_no_reference_witness :
  ∃ d, outcome (coerce_submission (VRef 1%positive) demo_submission demo_heap)
         = Ok (Some d) ∧
       map_Forall (λ _ x, immediate x = true) d.
Proof.
  destruct (coerce_submission (VRef 1%positive) demo_submission demo_heap)
    as [r h'] eqn:Hrun.
  assert (r = Ok (VRef 7%positive)) as ->.
  { apply (f_equal fst) in Hrun. vm_compute in Hrun. by symmetry. }
  destruct (configuration_holds_no_reference demo_heap h' (VRef 1%positive)
              demo_submission (VRef 7%positive)
              HeapWitnesses.demo_heap_closed demo_heap_schema_allocated Hrun)
    as (d & Hd & Himm).
  exists d. split; [|exact Himm].
  unfold outcome. cbn [fst snd]. by rewrite Hd.
Defined.

End HeapExtraWitnesses.
